(** * Environment configuration builders of the Contact Suite CLI

    A shallow embedding of [scripts/runtime_env.py]: the configuration
    record, the three builder classes ([DevEnvironment],
    [ProdLocalEnvironment], [CILocalEnvironment]), their [validate] methods,
    the shared [build] method and the helper [is_jwt_secret_valid].

    Conventions of the embedding.
    - A Python [str] is a [string], one [ascii] per character, so that
      [len] is [String.length]; [Optional[str]] is [option string].
    - A [Dict[str, str]] is a [gmap string string].  Dictionary equality in
      Python ignores insertion order, and so does the model.
    - The interpreter state a builder can observe or change is a [Process]:
      the ambient environment [os.environ] and the text written so far to
      [sys.stderr].  Methods that read or write it live in the monad [M],
      which threads the process and propagates a raised exception.
    - [os.environ.copy()] returns a dictionary of its own: the later item
      assignments of [build] act on that value and never on [environ]. *)

From Stdlib Require Import String Ascii Decimal DecimalString Bool Arith Lia.
From stdpp Require Import gmap strings.

Local Open Scope string_scope.

(** ** Python primitives used by the module *)

Module Py.

(** The line feed, written [\n] in the source. *)
Definition nl : string := String (ascii_of_nat 10) EmptyString.

(** Truth value of a [str]: only the empty string is falsy. *)
Definition truthy (s : string) : bool := negb (String.eqb s EmptyString).

(** Truth value of an [Optional[str]]: [None] and the empty string are
    falsy. *)
Definition truthy_opt (o : option string) : bool :=
  match o with
  | None => false
  | Some s => truthy s
  end.

(** [str(b)] for a [bool]. *)
Definition str_bool (b : bool) : string := if b then "True" else "False".

(** [str(n)] for a non-negative [int]. *)
Definition str_nat (n : nat) : string := NilEmpty.string_of_uint (Nat.to_uint n).

Definition lower_char (c : ascii) : ascii :=
  let n := nat_of_ascii c in
  if ((65 <=? n) && (n <=? 90))%nat then ascii_of_nat (n + 32) else c.

(** [s.lower()] on the letters [A-Z], which is all that the two uses in the
    module need: lowering ["True"] and ["False"], and comparing a lowered
    name with ["postgres"]. *)
Fixpoint lower (s : string) : string :=
  match s with
  | EmptyString => EmptyString
  | String c r => String (lower_char c) (lower r)
  end.

(** [d.setdefault(k, v)]: assigns only when [k] is not a key of [d]. *)
Definition setdefault (k v : string) (d : gmap string string) : gmap string string :=
  match d !! k with
  | Some _ => d
  | None => <[k := v]> d
  end.

(** [d.update(other)]: every item of [other] is assigned into [d]. *)
Definition update (d other : gmap string string) : gmap string string :=
  other ∪ d.

(** Number of line feeds in a text, that is the number of lines it
    terminates. *)
Fixpoint count_lines (s : string) : nat :=
  match s with
  | EmptyString => 0
  | String c r => (if Ascii.eqb c (ascii_of_nat 10) then 1 else 0) + count_lines r
  end.

End Py.

(** ** Process state, exceptions and the monad of methods *)

Record Process := {
  environ : gmap string string;
  stderr : string
}.

Inductive exn := ValueError (msg : string).

Inductive result (A : Type) :=
| Return (a : A)
| Raise (e : exn).
Arguments Return {A} a.
Arguments Raise {A} e.

Definition M (A : Type) : Type := Process -> result A * Process.

Definition ret {A} (a : A) : M A := fun p => (Return a, p).

Definition raise {A} (e : exn) : M A := fun p => (Raise e, p).

Definition bind {A B} (c : M A) (k : A -> M B) : M B :=
  fun p =>
    match c p with
    | (Return a, p') => k a p'
    | (Raise e, p') => (Raise e, p')
    end.

Notation "x <-- c ;; k" := (bind c (fun x => k))
  (at level 100, c at next level, right associativity).

(** [os.environ.get(name)]. *)
Definition os_environ_get (name : string) : M (option string) :=
  fun p => (Return (environ p !! name), p).

(** [os.environ.copy()]. *)
Definition os_environ_copy : M (gmap string string) :=
  fun p => (Return (environ p), p).

(** [print(text, file=sys.stderr)]: the text and a line feed are appended. *)
Definition print_stderr (text : string) : M unit :=
  fun p => (Return tt, {| environ := environ p; stderr := stderr p +:+ text +:+ Py.nl |}).

(** The outcome of running a method, and the process it leaves. *)
Definition outcome {A} (c : M A) (p : Process) : result A := fst (c p).
Definition after {A} (c : M A) (p : Process) : Process := snd (c p).

(** ** Constants and enumerations *)

Definition DEV_DEFAULT_JWT_SECRET : string :=
  "devsecretkey123456789012345678901234567890".

Inductive DatabaseType := H2 | POSTGRES.

Definition DatabaseType_eqb (a b : DatabaseType) : bool :=
  match a, b with
  | H2, H2 | POSTGRES, POSTGRES => true
  | _, _ => false
  end.

Inductive SpringProfile := DEFAULT | DEV | PROD.

Definition SpringProfile_value (s : SpringProfile) : string :=
  match s with
  | DEFAULT => "default"
  | DEV => "dev"
  | PROD => "prod"
  end.

(** ** The configuration record *)

Record EnvironmentConfig := {
  cookie_secure : bool;
  spring_profile : SpringProfile;
  csp_relaxed : bool;
  jwt_secret : option string;
  require_ssl : bool;
  database : DatabaseType;
  postgres_url : string;
  postgres_username : string;
  postgres_password : string;
  extra_vars : gmap string string
}.

(** [EnvironmentConfig()]: the dataclass defaults. *)
Definition EnvironmentConfig_new : EnvironmentConfig := {|
  cookie_secure := false;
  spring_profile := DEFAULT;
  csp_relaxed := false;
  jwt_secret := None;
  require_ssl := false;
  database := H2;
  postgres_url := "jdbc:postgresql://localhost:5432/contactapp";
  postgres_username := "contactapp";
  postgres_password := "contactapp";
  extra_vars := ∅
|}.

(** Attribute assignments [config.field = v]. *)
Definition set_cookie_secure (v : bool) (c : EnvironmentConfig) : EnvironmentConfig :=
  {| cookie_secure := v; spring_profile := spring_profile c;
     csp_relaxed := csp_relaxed c; jwt_secret := jwt_secret c;
     require_ssl := require_ssl c; database := database c;
     postgres_url := postgres_url c; postgres_username := postgres_username c;
     postgres_password := postgres_password c; extra_vars := extra_vars c |}.

Definition set_spring_profile (v : SpringProfile) (c : EnvironmentConfig) : EnvironmentConfig :=
  {| cookie_secure := cookie_secure c; spring_profile := v;
     csp_relaxed := csp_relaxed c; jwt_secret := jwt_secret c;
     require_ssl := require_ssl c; database := database c;
     postgres_url := postgres_url c; postgres_username := postgres_username c;
     postgres_password := postgres_password c; extra_vars := extra_vars c |}.

Definition set_csp_relaxed (v : bool) (c : EnvironmentConfig) : EnvironmentConfig :=
  {| cookie_secure := cookie_secure c; spring_profile := spring_profile c;
     csp_relaxed := v; jwt_secret := jwt_secret c;
     require_ssl := require_ssl c; database := database c;
     postgres_url := postgres_url c; postgres_username := postgres_username c;
     postgres_password := postgres_password c; extra_vars := extra_vars c |}.

Definition set_jwt_secret (v : option string) (c : EnvironmentConfig) : EnvironmentConfig :=
  {| cookie_secure := cookie_secure c; spring_profile := spring_profile c;
     csp_relaxed := csp_relaxed c; jwt_secret := v;
     require_ssl := require_ssl c; database := database c;
     postgres_url := postgres_url c; postgres_username := postgres_username c;
     postgres_password := postgres_password c; extra_vars := extra_vars c |}.

Definition set_require_ssl (v : bool) (c : EnvironmentConfig) : EnvironmentConfig :=
  {| cookie_secure := cookie_secure c; spring_profile := spring_profile c;
     csp_relaxed := csp_relaxed c; jwt_secret := jwt_secret c;
     require_ssl := v; database := database c;
     postgres_url := postgres_url c; postgres_username := postgres_username c;
     postgres_password := postgres_password c; extra_vars := extra_vars c |}.

Definition set_database (v : DatabaseType) (c : EnvironmentConfig) : EnvironmentConfig :=
  {| cookie_secure := cookie_secure c; spring_profile := spring_profile c;
     csp_relaxed := csp_relaxed c; jwt_secret := jwt_secret c;
     require_ssl := require_ssl c; database := v;
     postgres_url := postgres_url c; postgres_username := postgres_username c;
     postgres_password := postgres_password c; extra_vars := extra_vars c |}.

Definition set_postgres_url (v : string) (c : EnvironmentConfig) : EnvironmentConfig :=
  {| cookie_secure := cookie_secure c; spring_profile := spring_profile c;
     csp_relaxed := csp_relaxed c; jwt_secret := jwt_secret c;
     require_ssl := require_ssl c; database := database c;
     postgres_url := v; postgres_username := postgres_username c;
     postgres_password := postgres_password c; extra_vars := extra_vars c |}.

Definition set_postgres_username (v : string) (c : EnvironmentConfig) : EnvironmentConfig :=
  {| cookie_secure := cookie_secure c; spring_profile := spring_profile c;
     csp_relaxed := csp_relaxed c; jwt_secret := jwt_secret c;
     require_ssl := require_ssl c; database := database c;
     postgres_url := postgres_url c; postgres_username := v;
     postgres_password := postgres_password c; extra_vars := extra_vars c |}.

Definition set_postgres_password (v : string) (c : EnvironmentConfig) : EnvironmentConfig :=
  {| cookie_secure := cookie_secure c; spring_profile := spring_profile c;
     csp_relaxed := csp_relaxed c; jwt_secret := jwt_secret c;
     require_ssl := require_ssl c; database := database c;
     postgres_url := postgres_url c; postgres_username := postgres_username c;
     postgres_password := v; extra_vars := extra_vars c |}.

Definition set_extra_vars (v : gmap string string) (c : EnvironmentConfig) : EnvironmentConfig :=
  {| cookie_secure := cookie_secure c; spring_profile := spring_profile c;
     csp_relaxed := csp_relaxed c; jwt_secret := jwt_secret c;
     require_ssl := require_ssl c; database := database c;
     postgres_url := postgres_url c; postgres_username := postgres_username c;
     postgres_password := postgres_password c; extra_vars := v |}.

(** ** Builders *)

(** The concrete subclasses of the abstract [EnvironmentBuilder]. *)
Inductive BuilderClass := DevEnvironment | ProdLocalEnvironment | CILocalEnvironment.

(** A builder object: its class and its [_config] attribute. *)
Record EnvironmentBuilder := {
  class_of : BuilderClass;
  _config : EnvironmentConfig
}.

(** [self._config = f(self._config)]. *)
Definition configure (f : EnvironmentConfig -> EnvironmentConfig)
    (self : EnvironmentBuilder) : EnvironmentBuilder :=
  {| class_of := class_of self; _config := f (_config self) |}.

(** [EnvironmentBuilder.__init__], reached through [super().__init__()]. *)
Definition EnvironmentBuilder_init (cls : BuilderClass) : EnvironmentBuilder :=
  {| class_of := cls; _config := EnvironmentConfig_new |}.

(** [DevEnvironment(database)]. *)
Definition DevEnvironment_init (database : string) : EnvironmentBuilder :=
  let self := EnvironmentBuilder_init DevEnvironment in
  let self := configure (set_cookie_secure false) self in
  let self := configure (set_csp_relaxed true) self in
  let self := configure (set_require_ssl false) self in
  if String.eqb (Py.lower database) "postgres" then
    let self := configure (set_database POSTGRES) self in
    configure (set_spring_profile DEV) self
  else
    let self := configure (set_database H2) self in
    configure (set_spring_profile DEFAULT) self.

(** [DevEnvironment.with_postgres_credentials(url, username, password)];
    an argument left out in Python is the default of the same field in
    [EnvironmentConfig_new]. *)
Definition with_postgres_credentials (url username password : string)
    (self : EnvironmentBuilder) : EnvironmentBuilder :=
  let self := configure (set_postgres_url url) self in
  let self := configure (set_postgres_username username) self in
  configure (set_postgres_password password) self.

(** [ProdLocalEnvironment()]: the secret is read from the ambient
    environment here. *)
Definition ProdLocalEnvironment_init : M EnvironmentBuilder :=
  let self := EnvironmentBuilder_init ProdLocalEnvironment in
  let self := configure (set_cookie_secure true) self in
  let self := configure (set_csp_relaxed false) self in
  let self := configure (set_require_ssl false) self in
  let self := configure (set_database POSTGRES) self in
  let self := configure (set_spring_profile PROD) self in
  secret <-- os_environ_get "JWT_SECRET" ;;
  ret (configure (set_jwt_secret secret) self).

(** [ProdLocalEnvironment.with_https()]. *)
Definition with_https (self : EnvironmentBuilder) : EnvironmentBuilder :=
  configure (set_require_ssl true) self.

(** [CILocalEnvironment()]. *)
Definition CILocalEnvironment_init : EnvironmentBuilder :=
  let self := EnvironmentBuilder_init CILocalEnvironment in
  let self := configure (set_cookie_secure true) self in
  let self := configure (set_spring_profile DEFAULT) self in
  let self := configure (set_csp_relaxed false) self in
  configure (set_require_ssl false) self.

(** The module offers no method for [extra_vars]; a caller supplies extra
    variables by filling the dictionary [self._config.extra_vars]. *)
Definition with_extra_vars (extra : gmap string string)
    (self : EnvironmentBuilder) : EnvironmentBuilder :=
  configure (set_extra_vars extra) self.

(** ** Validation *)

(** The three [ValueError]s of [ProdLocalEnvironment.validate], named after
    the condition each one reports. *)
Definition MissingSecret : exn :=
  ValueError ("JWT_SECRET environment variable is required for prod-local mode."
              +:+ Py.nl +:+
              "Set it with: export JWT_SECRET=$(openssl rand -base64 32)").

Definition InsecureDefaultSecret : exn :=
  ValueError ("JWT_SECRET cannot be the dev default in prod-local mode."
              +:+ Py.nl +:+
              "Generate a secure secret with: openssl rand -base64 32").

Definition SecretTooShort (got : nat) : exn :=
  ValueError ("JWT_SECRET must be at least 32 characters (got "
              +:+ Py.str_nat got +:+ ")." +:+ Py.nl +:+
              "Generate a secure secret with: openssl rand -base64 32").

Definition DevEnvironment_validate (self : EnvironmentBuilder) : M unit :=
  ret tt.

Definition ProdLocalEnvironment_validate (self : EnvironmentBuilder) : M unit :=
  let jwt_secret := jwt_secret (_config self) in
  match jwt_secret with
  | None => raise MissingSecret
  | Some secret =>
      if negb (Py.truthy secret) then raise MissingSecret
      else if String.eqb secret DEV_DEFAULT_JWT_SECRET then raise InsecureDefaultSecret
      else if (String.length secret <? 32)%nat then raise (SecretTooShort (String.length secret))
      else ret tt
  end.

(** The advisory of [CILocalEnvironment.validate]. *)
Definition NVD_WARNING : string :=
  "[WARN] NVD_API_KEY not set. OWASP Dependency-Check will be slower."
  +:+ Py.nl +:+
  "       Get a free key at: https://nvd.nist.gov/developers/request-an-api-key".

Definition CILocalEnvironment_validate (self : EnvironmentBuilder) : M unit :=
  key <-- os_environ_get "NVD_API_KEY" ;;
  if negb (Py.truthy_opt key) then print_stderr NVD_WARNING else ret tt.

(** Dynamic dispatch of the abstract method [validate]. *)
Definition validate (self : EnvironmentBuilder) : M unit :=
  match class_of self with
  | DevEnvironment => DevEnvironment_validate self
  | ProdLocalEnvironment => ProdLocalEnvironment_validate self
  | CILocalEnvironment => CILocalEnvironment_validate self
  end.

(** ** Finalization *)

(** [EnvironmentBuilder.build]. *)
Definition build (self : EnvironmentBuilder) : M (gmap string string) :=
  _ <-- validate self ;;
  env <-- os_environ_copy ;;
  let config := _config self in
  let env := <["APP_AUTH_COOKIE_SECURE" := Py.lower (Py.str_bool (cookie_secure config))]> env in
  let env := <["COOKIE_SECURE" := Py.lower (Py.str_bool (cookie_secure config))]> env in
  let env := <["SPRING_PROFILES_ACTIVE" := SpringProfile_value (spring_profile config)]> env in
  let env := if csp_relaxed config then <["CSP_RELAXED" := "true"]> env else env in
  let env :=
    match jwt_secret config with
    | Some secret => if Py.truthy secret then <["JWT_SECRET" := secret]> env else env
    | None => env
    end in
  let env := <["REQUIRE_SSL" := Py.lower (Py.str_bool (require_ssl config))]> env in
  let env :=
    if DatabaseType_eqb (database config) POSTGRES then
      let env := Py.setdefault "SPRING_DATASOURCE_URL" (postgres_url config) env in
      let env := Py.setdefault "SPRING_DATASOURCE_USERNAME" (postgres_username config) env in
      let env := Py.setdefault "SPRING_DATASOURCE_PASSWORD" (postgres_password config) env in
      Py.setdefault "SPRING_DATASOURCE_DRIVER_CLASS_NAME" "org.postgresql.Driver" env
    else env in
  let env := Py.update env (extra_vars config) in
  ret env.

(** ** The standalone helper *)

(** [is_jwt_secret_valid(secret)]. *)
Definition is_jwt_secret_valid (secret : option string) : bool :=
  match secret with
  | None => false
  | Some s =>
      if negb (Py.truthy s) then false
      else if String.eqb s DEV_DEFAULT_JWT_SECRET then false
      else if (String.length s <? 32)%nat then false
      else true
  end.

(** ** Builders a program can hold

    A builder of each class is made by the class's constructor and then
    changed only by the class's chained methods and by a caller filling
    [extra_vars]. *)

Inductive DevBuilder : EnvironmentBuilder -> Prop :=
| Dev_new database : DevBuilder (DevEnvironment_init database)
| Dev_credentials url username password self :
    DevBuilder self -> DevBuilder (with_postgres_credentials url username password self)
| Dev_extra extra self :
    DevBuilder self -> DevBuilder (with_extra_vars extra self).

(** [ProdLocalBuilder p0 self]: [self] was constructed while the process was
    in state [p0]. *)
Inductive ProdLocalBuilder (p0 : Process) : EnvironmentBuilder -> Prop :=
| ProdLocal_new self :
    outcome ProdLocalEnvironment_init p0 = Return self -> ProdLocalBuilder p0 self
| ProdLocal_https self :
    ProdLocalBuilder p0 self -> ProdLocalBuilder p0 (with_https self)
| ProdLocal_extra extra self :
    ProdLocalBuilder p0 self -> ProdLocalBuilder p0 (with_extra_vars extra self).

Inductive CILocalBuilder : EnvironmentBuilder -> Prop :=
| CILocal_new : CILocalBuilder CILocalEnvironment_init
| CILocal_extra extra self :
    CILocalBuilder self -> CILocalBuilder (with_extra_vars extra self).

(** ** Auxiliary definitions for the statements *)

(** The four [setdefault] calls of the Postgres branch: variable and
    configured value. *)
Definition datasource_vars (config : EnvironmentConfig) : list (string * string) :=
  [ ("SPRING_DATASOURCE_URL", postgres_url config);
    ("SPRING_DATASOURCE_USERNAME", postgres_username config);
    ("SPRING_DATASOURCE_PASSWORD", postgres_password config);
    ("SPRING_DATASOURCE_DRIVER_CLASS_NAME", "org.postgresql.Driver") ].

(** The verdict of [ProdLocalEnvironment.validate] on a secret, as a relation
    between the secret and the outcome. *)

Inductive secret_verdict : option string -> result unit -> Prop :=
| verdict_none :
    secret_verdict None (Raise MissingSecret)
| verdict_empty :
    secret_verdict (Some EmptyString) (Raise MissingSecret)
| verdict_default :
    secret_verdict (Some DEV_DEFAULT_JWT_SECRET) (Raise InsecureDefaultSecret)
| verdict_short s :
    s <> EmptyString -> s <> DEV_DEFAULT_JWT_SECRET -> String.length s < 32 ->
    secret_verdict (Some s) (Raise (SecretTooShort (String.length s)))
| verdict_valid s :
    s <> EmptyString -> s <> DEV_DEFAULT_JWT_SECRET -> 32 <= String.length s ->
    secret_verdict (Some s) (Return tt).

(** ** Concrete processes and builders used in the examples *)

Definition process_of (env : gmap string string) : Process :=
  {| environ := env; stderr := EmptyString |}.

Definition secret32 : string := "aaaaaaaaaaaaaaaaaaaaaaaaaaaaaaaa".
Definition secret31 : string := "aaaaaaaaaaaaaaaaaaaaaaaaaaaaaaa".

(** The builder [ProdLocalEnvironment()] made in process [p0]; the
    constructor raises nothing, so the second branch is never taken. *)
Definition ProdLocal_in (p0 : Process) : EnvironmentBuilder :=
  match outcome ProdLocalEnvironment_init p0 with
  | Return self => self
  | Raise _ => EnvironmentBuilder_init ProdLocalEnvironment
  end.

Definition ambient_bare : Process := process_of ∅.
Definition ambient_no_secret : Process := process_of {["PATH" := "/usr/bin"]}.
Definition ambient_empty_secret : Process :=
  process_of {["JWT_SECRET" := EmptyString]}.
Definition ambient_short_secret : Process :=
  process_of {["JWT_SECRET" := "short"]}.
Definition ambient_valid_secret : Process :=
  process_of {["JWT_SECRET" := secret32]}.
Definition ambient_relaxed_csp : Process :=
  process_of (<["CSP_RELAXED" := "true"]> {["JWT_SECRET" := secret32]}).
Definition ambient_cookie : Process :=
  process_of {["COOKIE_SECURE" := "ambient"]}.
Definition ambient_datasource : Process :=
  process_of {["SPRING_DATASOURCE_URL" := "jdbc:ambient"]}.
Definition ambient_home : Process := process_of {["HOME" := "/root"]}.
Definition ambient_home_later : Process :=
  {| environ := {["HOME" := "/root"]}; stderr := "earlier output" |}.

Definition dev_with_extra : EnvironmentBuilder :=
  with_extra_vars {["COOKIE_SECURE" := "mine"]} (DevEnvironment_init "h2").

Definition dev_custom_postgres : EnvironmentBuilder :=
  with_postgres_credentials "jdbc:postgresql://custom:5432/mydb" "myuser" "mypass"
    (DevEnvironment_init "postgres").

(** ** Further Python primitives *)

Module PyStr.

(** [s[:n]]. *)
Definition slice_to (n : nat) (s : string) : string := String.substring 0 n s.

(** [s[-n:]] for a positive [n]: the last [n] characters, or all of [s] when
    it has fewer. *)
Definition slice_last (n : nat) (s : string) : string :=
  String.substring (String.length s - n) n s.

(** [c.isspace()] for one character: the ASCII blanks and separators, the
    next-line control and the no-break space. *)
Definition isspace (c : ascii) : bool :=
  let n := nat_of_ascii c in
  (((9 <=? n) && (n <=? 13)) || ((28 <=? n) && (n <=? 32))
   || (n =? 133) || (n =? 160))%nat.

(** [s.lstrip()]. *)
Fixpoint lstrip (s : string) : string :=
  match s with
  | EmptyString => EmptyString
  | String c r => if isspace c then lstrip r else s
  end.

(** [s.rstrip()]. *)
Fixpoint rstrip (s : string) : string :=
  match s with
  | EmptyString => EmptyString
  | String c r =>
      match rstrip r with
      | EmptyString => if isspace c then EmptyString else String c EmptyString
      | r' => String c r'
      end
  end.

(** [s.strip()]. *)
Definition strip (s : string) : string := rstrip (lstrip s).

(** Whether every character of [s] is white space; true of the empty
    string. *)
Fixpoint blank (s : string) : bool :=
  match s with
  | EmptyString => true
  | String c r => isspace c && blank r
  end.

(** [d or {}] for an optional dictionary: [None] and the empty dictionary
    are falsy, and both give an empty dictionary. *)
Definition or_empty (d : option (gmap string string)) : gmap string string :=
  match d with
  | Some m => m
  | None => ∅
  end.

End PyStr.

(** ** The masking helper of [runtime_env] *)

(** [mask_sensitive_value(value)]. *)
Definition mask_sensitive_value (value : string) : string :=
  if (String.length value <=? 4)%nat then "****"
  else PyStr.slice_to 2 value +:+ "..." +:+ PyStr.slice_last 2 value.

(** ** The callers in [cs_cli]

    The commands of the CLI print to a console and run external programs.
    What is embedded here is what they compute themselves: the environment
    they hand over, the choice of the checks to run, the exit code, and the
    reading of a confirmation.  The exit code of an external program is a
    parameter. *)

Module cs_cli.

(** The environment of [_run_maven(goals, env)]:
    [{**os.environ, **(env or {})}]. *)
Definition merged_env (env : option (gmap string string)) : M (gmap string string) :=
  environ <-- os_environ_copy ;;
  ret (Py.update environ (PyStr.or_empty env)).

(** How a command goes on after its first stage: it leaves with
    [raise typer.Exit(code)], it lets an exception of the stage escape, or
    it continues with the value the stage produced. *)
Inductive stage (A : Type) :=
| Exit (code : Z)
| Uncaught (e : exn)
| Continue (a : A).
Arguments Exit {A} code.
Arguments Uncaught {A} e.
Arguments Continue {A} a.

(** The first stage of the [dev] command, in a process [p]: the options
    [--backend-only] and [--frontend-only] together end the command with
    [typer.Exit(1)]; otherwise the environment is
    [DevEnvironment(database=db).build()], whose exceptions the command does
    not catch.  What the command prints on the console is not modelled. *)
Definition dev_env (db : string) (backend_only frontend_only : bool)
    (p : Process) : stage (gmap string string) :=
  if backend_only && frontend_only then Exit 1%Z
  else
    match outcome (build (DevEnvironment_init db)) p with
    | Return env => Continue env
    | Raise e => Uncaught e
    end.

(** Whether the [dev] command starts the Postgres container:
    [db.lower() == "postgres" and not frontend_only]. *)
Definition dev_starts_postgres (db : string) (frontend_only : bool) : bool :=
  String.eqb (Py.lower db) "postgres" && negb frontend_only.

(** The environment of the [prod-local] command: the constructor, the
    optional [with_https()] and [build()], as in its [try] block. *)
Definition prod_local_env (https : bool) : M (gmap string string) :=
  env_builder <-- ProdLocalEnvironment_init ;;
  let env_builder := if https then with_https env_builder else env_builder in
  build env_builder.

(** The environment of the [ci-local] command and the one its Maven run
    gets through [_run_maven(goals, env=env)]. *)
Definition ci_local_env : M (gmap string string) :=
  build CILocalEnvironment_init.

Definition ci_local_maven_env : M (gmap string string) :=
  env <-- ci_local_env ;;
  merged_env (Some env).

(** The quality checks of the [test] command, in the order it runs them. *)
Inductive Check :=
| UnitTests | IntegrationTests | FrontendTests
| MutationTesting | OwaspDepCheck | ApiFuzzing.

(** The key of a check in the [results] dictionary. *)
Definition check_name (c : Check) : string :=
  match c with
  | UnitTests => "Unit Tests"
  | IntegrationTests => "Integration Tests"
  | FrontendTests => "Frontend Tests"
  | MutationTesting => "Mutation Testing"
  | OwaspDepCheck => "OWASP Dep-Check"
  | ApiFuzzing => "API Fuzzing"
  end.

Record TestOptions := {
  opt_unit : bool;
  opt_integration : bool;
  opt_frontend : bool;
  opt_mutation : bool;
  opt_security : bool;
  opt_fast : bool
}.

(** [run_all = not any([unit, integration, frontend, mutation, security])]. *)
Definition run_all (o : TestOptions) : bool :=
  negb (opt_unit o || opt_integration o || opt_frontend o
        || opt_mutation o || opt_security o).

(** The item that a check leaves in the [results] dictionary: its name,
    ["PASS"] or ["FAIL"], and the exit code [rc] of its external program. *)
Definition result_item (rc : Check -> Z) (c : Check) : string * (string * Z) :=
  (check_name c, (if (rc c =? 0)%Z then "PASS" else "FAIL", rc c)).

(** The [results] dictionary of the [test] command, as the list of its
    items in insertion order. *)
Definition test_results (o : TestOptions) (rc : Check -> Z)
    : list (string * (string * Z)) :=
  (if run_all o || opt_unit o then [result_item rc UnitTests] else []) ++
  (if run_all o || opt_integration o then [result_item rc IntegrationTests] else []) ++
  (if run_all o || opt_frontend o then [result_item rc FrontendTests] else []) ++
  (if (run_all o && negb (opt_fast o)) || opt_mutation o
   then [result_item rc MutationTesting] else []) ++
  (if (run_all o && negb (opt_fast o)) || opt_security o
   then [result_item rc OwaspDepCheck; result_item rc ApiFuzzing] else []).

(** The exit code of the [test] command: [0 if all_passed else 1]. *)
Definition test_exit_code (o : TestOptions) (rc : Check -> Z) : Z :=
  let all_passed :=
    fold_left (fun passed item => if (snd (snd item) =? 0)%Z then passed else false)
              (test_results o rc) true in
  if all_passed then 0%Z else 1%Z.

(** The suffix that [_confirm] appends to its message. *)
Definition confirm_suffix (default : bool) : string :=
  if negb default then " [y/N]: " else " [Y/n]: ".

(** [_confirm(message, default)] once [input] has returned the line
    [typed].  The lowered response is only tested for emptiness and compared
    with ["y"] and ["yes"]. *)
Definition confirm (typed : string) (default : bool) : bool :=
  let response := Py.lower (PyStr.strip typed) in
  if negb (Py.truthy response) then default
  else String.eqb response "y" || String.eqb response "yes".

End cs_cli.

(** The keys that [build] may assign by itself. *)
Definition managed_keys : list string :=
  [ "APP_AUTH_COOKIE_SECURE"; "COOKIE_SECURE"; "SPRING_PROFILES_ACTIVE";
    "CSP_RELAXED"; "JWT_SECRET"; "REQUIRE_SSL";
    "SPRING_DATASOURCE_URL"; "SPRING_DATASOURCE_USERNAME";
    "SPRING_DATASOURCE_PASSWORD"; "SPRING_DATASOURCE_DRIVER_CLASS_NAME" ].

(** [DevBuilderOf name self]: a development builder constructed as
    [DevEnvironment(name)]. *)
Inductive DevBuilderOf (name : string) : EnvironmentBuilder -> Prop :=
| DevOf_new : DevBuilderOf name (DevEnvironment_init name)
| DevOf_credentials url username password self :
    DevBuilderOf name self ->
    DevBuilderOf name (with_postgres_credentials url username password self)
| DevOf_extra extra self :
    DevBuilderOf name self -> DevBuilderOf name (with_extra_vars extra self).

(** * Properties *)

(** ** Facts about the primitives *)

Section Primitives.
Implicit Types (d other : gmap string string) (k v s : string).

Lemma truthy_false s : Py.truthy s = false <-> s = EmptyString.
Proof.
  unfold Py.truthy. rewrite negb_false_iff. apply String.eqb_eq.
Qed.

Lemma truthy_true s : Py.truthy s = true <-> s <> EmptyString.
Proof.
  unfold Py.truthy. rewrite negb_true_iff. apply String.eqb_neq.
Qed.

Lemma lookup_setdefault_eq k v d :
  Py.setdefault k v d !! k = Some (default v (d !! k)).
Proof.
  unfold Py.setdefault. destruct (d !! k) as [a|] eqn:E; simpl.
  - exact E.
  - apply lookup_insert_eq.
Qed.

Lemma lookup_setdefault_ne k k' v d :
  k <> k' -> Py.setdefault k v d !! k' = d !! k'.
Proof.
  intros Hne. unfold Py.setdefault. destruct (d !! k); [reflexivity|].
  now apply lookup_insert_ne.
Qed.

Lemma lookup_update_Some d other k v :
  other !! k = Some v -> Py.update d other !! k = Some v.
Proof. intros H. unfold Py.update. now apply lookup_union_Some_l. Qed.

Lemma lookup_update_None d other k :
  other !! k = None -> Py.update d other !! k = d !! k.
Proof. intros H. unfold Py.update. now apply lookup_union_r. Qed.

Lemma count_lines_app s1 s2 :
  Py.count_lines (s1 +:+ s2) = Py.count_lines s1 + Py.count_lines s2.
Proof.
  induction s1 as [|c r IH]; simpl; [reflexivity|]. rewrite IH. lia.
Qed.

End Primitives.

(** ** The three failure conditions are pairwise distinct *)

Lemma MissingSecret_neq_Insecure : MissingSecret <> InsecureDefaultSecret.
Proof. discriminate. Qed.

Lemma SecretTooShort_neq_Missing n : SecretTooShort n <> MissingSecret.
Proof. unfold SecretTooShort, MissingSecret. cbn. discriminate. Qed.

Lemma SecretTooShort_neq_Insecure n : SecretTooShort n <> InsecureDefaultSecret.
Proof. unfold SecretTooShort, InsecureDefaultSecret. cbn. discriminate. Qed.

Lemma DEV_DEFAULT_JWT_SECRET_length : String.length DEV_DEFAULT_JWT_SECRET = 42.
Proof. reflexivity. Qed.

(** ** Running [validate] and [build] *)

Lemma validate_environ self p : environ (after (validate self) p) = environ p.
Proof.
  unfold after, validate.
  destruct (class_of self); simpl.
  - reflexivity.
  - unfold ProdLocalEnvironment_validate.
    destruct (jwt_secret (_config self)) as [s|]; [|reflexivity].
    destruct (negb (Py.truthy s)); [reflexivity|].
    destruct (String.eqb s DEV_DEFAULT_JWT_SECRET); [reflexivity|].
    destruct (String.length s <? 32)%nat; reflexivity.
  - unfold CILocalEnvironment_validate, bind, os_environ_get.
    destruct (negb (Py.truthy_opt (environ p !! "NVD_API_KEY"))); reflexivity.
Qed.

(** [build] unfolds to a case distinction on the run of [validate]. *)
Ltac run_build self p :=
  unfold outcome, after, build, bind, os_environ_copy, ret in *;
  let u := fresh "u" in
  let e := fresh "e" in
  let p' := fresh "p'" in
  let Hv := fresh "Hv" in
  destruct (validate self p) as [[u|e] p'] eqn:Hv; simpl in *.

Lemma build_after self p : after (build self) p = after (validate self) p.
Proof. run_build self p; reflexivity. Qed.

Lemma build_environ self p : environ (after (build self) p) = environ p.
Proof. rewrite build_after. apply validate_environ. Qed.

Lemma build_raise self p e :
  outcome (build self) p = Raise e <-> outcome (validate self) p = Raise e.
Proof.
  run_build self p; split; intros H; try discriminate; congruence.
Qed.

Lemma build_returns self p :
  outcome (validate self) p = Return tt ->
  exists m, outcome (build self) p = Return m.
Proof.
  intros H. run_build self p; [eauto | discriminate].
Qed.

Lemma build_return_validate self p m :
  outcome (build self) p = Return m -> outcome (validate self) p = Return tt.
Proof.
  intros H. run_build self p; [now destruct u | discriminate].
Qed.

(** ** What the constructors and chained methods establish *)

Lemma ProdLocalBuilder_inv p0 self :
  ProdLocalBuilder p0 self ->
  class_of self = ProdLocalEnvironment /\
  cookie_secure (_config self) = true /\
  csp_relaxed (_config self) = false /\
  database (_config self) = POSTGRES /\
  spring_profile (_config self) = PROD /\
  jwt_secret (_config self) = environ p0 !! "JWT_SECRET".
Proof.
  induction 1 as [self Hnew | self _ IH | extra self _ IH].
  - unfold outcome in Hnew. simpl in Hnew. injection Hnew as <-. now simpl.
  - exact IH.
  - exact IH.
Qed.

Lemma CILocalBuilder_inv self :
  CILocalBuilder self ->
  class_of self = CILocalEnvironment /\
  cookie_secure (_config self) = true /\
  csp_relaxed (_config self) = false /\
  database (_config self) = H2 /\
  spring_profile (_config self) = DEFAULT /\
  require_ssl (_config self) = false /\
  jwt_secret (_config self) = None.
Proof.
  induction 1 as [| extra self _ IH]; [now simpl | exact IH].
Qed.

Lemma DevBuilder_inv self :
  DevBuilder self ->
  class_of self = DevEnvironment /\
  cookie_secure (_config self) = false /\
  csp_relaxed (_config self) = true /\
  require_ssl (_config self) = false /\
  jwt_secret (_config self) = None.
Proof.
  induction 1 as [db | url username password self _ IH | extra self _ IH].
  - unfold DevEnvironment_init.
    destruct (String.eqb (Py.lower db) "postgres"); now simpl.
  - exact IH.
  - exact IH.
Qed.

(** Validation of a development builder succeeds and has no effect. *)
Lemma dev_validate_never_fails self p :
  DevBuilder self -> validate self p = (Return tt, p).
Proof.
  intros Hb. destruct (DevBuilder_inv _ Hb) as (Hc & _).
  unfold validate. now rewrite Hc.
Qed.

Lemma ProdLocal_validate_verdict self p :
  class_of self = ProdLocalEnvironment ->
  secret_verdict (jwt_secret (_config self)) (outcome (validate self) p) /\
  after (validate self) p = p.
Proof.
  intros Hc. unfold outcome, after, validate. rewrite Hc.
  unfold ProdLocalEnvironment_validate.
  destruct (jwt_secret (_config self)) as [s|]; [|split; [constructor | reflexivity]].
  destruct (Py.truthy s) eqn:Ht; simpl.
  - apply truthy_true in Ht.
    destruct (String.eqb s DEV_DEFAULT_JWT_SECRET) eqn:Hd.
    + apply String.eqb_eq in Hd. subst s. split; [constructor | reflexivity].
    + apply String.eqb_neq in Hd.
      destruct (String.length s <? 32)%nat eqn:Hl.
      * apply Nat.ltb_lt in Hl. split; [now constructor | reflexivity].
      * apply Nat.ltb_ge in Hl. split; [now constructor | reflexivity].
  - apply truthy_false in Ht. subst s. split; [constructor | reflexivity].
Qed.

Lemma is_jwt_secret_valid_verdict secret :
  is_jwt_secret_valid secret = true <-> secret_verdict secret (Return tt).
Proof.
  unfold is_jwt_secret_valid. split.
  - destruct secret as [s|]; [|discriminate].
    destruct (Py.truthy s) eqn:Ht; simpl; [|discriminate].
    destruct (String.eqb s DEV_DEFAULT_JWT_SECRET) eqn:Hd; [discriminate|].
    destruct (String.length s <? 32)%nat eqn:Hl; [discriminate|].
    intros _. apply truthy_true in Ht. apply String.eqb_neq in Hd.
    apply Nat.ltb_ge in Hl. now constructor.
  - inversion 1 as [ | | | | s Hne Hnd Hlen]; subst.
    apply truthy_true in Hne. apply String.eqb_neq in Hnd.
    apply Nat.ltb_ge in Hlen. now rewrite Hne, Hnd, Hlen.
Qed.

Lemma Raise_inj {A} (e1 e2 : exn) : @Raise A e1 = Raise e2 -> e1 = e2.
Proof. intros H. now injection H. Qed.

Lemma secret_verdict_functional secret r1 r2 :
  secret_verdict secret r1 -> secret_verdict secret r2 -> r1 = r2.
Proof.
  intros V1 V2.
  destruct V1; inversion V2; subst; try reflexivity; try congruence;
    simpl in *; lia.
Qed.

(** An equation between two different errors is absurd. *)
Ltac absurd_exn :=
  match goal with
  | H : Raise _ = Raise _ |- _ =>
      apply Raise_inj in H; exfalso;
      first [ exact (MissingSecret_neq_Insecure H)
            | exact (MissingSecret_neq_Insecure (eq_sym H))
            | exact (SecretTooShort_neq_Missing _ H)
            | exact (SecretTooShort_neq_Missing _ (eq_sym H))
            | exact (SecretTooShort_neq_Insecure _ H)
            | exact (SecretTooShort_neq_Insecure _ (eq_sym H)) ]
  end.

Lemma verdict_missing_iff secret r :
  secret_verdict secret r ->
  r = Raise MissingSecret <-> secret = None \/ secret = Some EmptyString.
Proof.
  destruct 1 as [ | | | s Hne Hnd Hlen | s Hne Hnd Hlen ].
  - split; auto.
  - split; auto.
  - split; [intros H; absurd_exn | intros [H|H]; discriminate H].
  - split; [intros H; absurd_exn | intros [H|H]; congruence].
  - split; [discriminate | intros [H|H]; congruence].
Qed.

Lemma verdict_insecure_iff secret r :
  secret_verdict secret r ->
  r = Raise InsecureDefaultSecret <-> secret = Some DEV_DEFAULT_JWT_SECRET.
Proof.
  destruct 1 as [ | | | s Hne Hnd Hlen | s Hne Hnd Hlen ].
  - split; [intros H; absurd_exn | discriminate].
  - split; [intros H; absurd_exn | discriminate].
  - split; auto.
  - split; [intros H; absurd_exn | congruence].
  - split; [discriminate | congruence].
Qed.

Lemma verdict_short_iff secret r :
  secret_verdict secret r ->
  (exists n, r = Raise (SecretTooShort n)) <->
  (exists s, secret = Some s /\ s <> EmptyString /\
             s <> DEV_DEFAULT_JWT_SECRET /\ String.length s < 32).
Proof.
  destruct 1 as [ | | | s Hne Hnd Hlen | s Hne Hnd Hlen ].
  - split; [intros [n H]; absurd_exn | intros (s & H & _); discriminate H].
  - split; [intros [n H]; absurd_exn | intros (s & H & Hne & _); congruence].
  - split; [intros [n H]; absurd_exn | intros (s & H & _ & Hnd & _); congruence].
  - split; [intros _; now exists s | intros _; now exists (String.length s)].
  - split; [intros [n H]; discriminate H |].
    intros (s' & H & _ & _ & Hlen'). injection H as <-. lia.
Qed.

Lemma ProdLocal_in_builder p0 : ProdLocalBuilder p0 (ProdLocal_in p0).
Proof. now constructor. Qed.

(** ** The secret-validity helper *)

(** C9. [is_jwt_secret_valid] is false for a missing secret, for the empty
    string, for the development placeholder and for every string shorter
    than 32 characters; it is true for every other string, that is for every
    string of at least 32 characters that is not the placeholder. *)
Theorem is_jwt_secret_valid_spec :
  is_jwt_secret_valid None = false /\
  is_jwt_secret_valid (Some EmptyString) = false /\
  is_jwt_secret_valid (Some DEV_DEFAULT_JWT_SECRET) = false /\
  (forall s, String.length s < 32 -> is_jwt_secret_valid (Some s) = false) /\
  (forall s, 32 <= String.length s -> s <> DEV_DEFAULT_JWT_SECRET ->
             is_jwt_secret_valid (Some s) = true).
Proof.
  repeat split; try reflexivity.
  - intros s Hlen. apply not_true_is_false. intros Hv.
    apply is_jwt_secret_valid_verdict in Hv. inversion Hv; subst. lia.
  - intros s Hlen Hnd. apply is_jwt_secret_valid_verdict. constructor; trivial.
    intros ->. simpl in Hlen. lia.
Qed.

Lemma is_jwt_secret_valid_spec_witness :
  is_jwt_secret_valid (Some secret31) = false /\
  is_jwt_secret_valid (Some secret32) = true.
Proof.
  destruct is_jwt_secret_valid_spec as (_ & _ & _ & Hshort & Hlong).
  split.
  - apply Hshort. simpl. lia.
  - apply Hlong; [simpl; lia | discriminate].
Defined.

(** ** Validation of the production-like builder *)

(** C10. A [ProdLocalEnvironment] constructed while [JWT_SECRET] is set to
    the empty string fails validation, and hence [build], with the
    [MissingSecret] error, the one whose message says that the variable is
    required, and with no [SecretTooShort] error. *)
Theorem prodlocal_empty_secret_is_missing p0 self p :
  environ p0 !! "JWT_SECRET" = Some EmptyString ->
  ProdLocalBuilder p0 self ->
  outcome (validate self) p = Raise MissingSecret /\
  outcome (build self) p = Raise MissingSecret /\
  (forall n, outcome (validate self) p <> Raise (SecretTooShort n)).
Proof.
  intros Hamb Hb.
  destruct (ProdLocalBuilder_inv _ _ Hb) as (Hc & _ & _ & _ & _ & Hs).
  destruct (ProdLocal_validate_verdict self p Hc) as [V _].
  rewrite Hs, Hamb in V.
  assert (Hv : outcome (validate self) p = Raise MissingSecret).
  { inversion V; subst; congruence. }
  repeat split.
  - exact Hv.
  - now apply build_raise.
  - intros n Hn. rewrite Hv in Hn. apply Raise_inj in Hn.
    now apply (SecretTooShort_neq_Missing n).
Qed.

Lemma prodlocal_empty_secret_is_missing_witness :
  outcome (validate (ProdLocal_in ambient_empty_secret)) ambient_valid_secret
    = Raise MissingSecret /\
  outcome (build (ProdLocal_in ambient_empty_secret)) ambient_valid_secret
    = Raise MissingSecret /\
  (forall n, outcome (validate (ProdLocal_in ambient_empty_secret)) ambient_valid_secret
               <> Raise (SecretTooShort n)).
Proof.
  apply (prodlocal_empty_secret_is_missing ambient_empty_secret
           (ProdLocal_in ambient_empty_secret) ambient_valid_secret).
  - reflexivity.
  - apply ProdLocal_in_builder.
Defined.

(** C1, as amended. For every [ProdLocalEnvironment] builder, [validate]
    fails with [MissingSecret] if and only if no secret is present or the
    secret is the empty string; with [InsecureDefaultSecret] if and only if
    the secret equals the development placeholder; with [SecretTooShort] if
    and only if the secret is present, not empty, not the placeholder and
    shorter than 32 characters.  With a secret of exactly 32 characters that
    is not the placeholder, validation and [build] succeed.  [build] fails
    exactly when [validate] does, with the same error. *)
Theorem prodlocal_validate_conditions p0 self p :
  ProdLocalBuilder p0 self ->
  let secret := jwt_secret (_config self) in
  (outcome (validate self) p = Raise MissingSecret <->
     secret = None \/ secret = Some EmptyString) /\
  (outcome (validate self) p = Raise InsecureDefaultSecret <->
     secret = Some DEV_DEFAULT_JWT_SECRET) /\
  ((exists n, outcome (validate self) p = Raise (SecretTooShort n)) <->
     exists s, secret = Some s /\ s <> EmptyString /\
               s <> DEV_DEFAULT_JWT_SECRET /\ String.length s < 32) /\
  (forall s, secret = Some s -> String.length s = 32 ->
             s <> DEV_DEFAULT_JWT_SECRET ->
             outcome (validate self) p = Return tt /\
             exists m, outcome (build self) p = Return m) /\
  (forall e, outcome (build self) p = Raise e <->
             outcome (validate self) p = Raise e).
Proof.
  intros Hb secret.
  destruct (ProdLocalBuilder_inv _ _ Hb) as (Hc & _).
  destruct (ProdLocal_validate_verdict self p Hc) as [V _].
  fold secret in V.
  assert (Hvalid : forall s, secret = Some s -> String.length s = 32 ->
             s <> DEV_DEFAULT_JWT_SECRET ->
             outcome (validate self) p = Return tt).
  { intros s Hs Hlen Hnd.
    apply (secret_verdict_functional secret); [exact V|].
    rewrite Hs. constructor; [|exact Hnd|lia].
    intros ->. discriminate Hlen. }
  split; [|split; [|split; [|split]]].
  - now apply verdict_missing_iff.
  - now apply verdict_insecure_iff.
  - now apply verdict_short_iff.
  - intros s Hs Hlen Hnd. split; [now apply (Hvalid s)|].
    apply build_returns. now apply (Hvalid s).
  - intros e. apply build_raise.
Qed.

Lemma prodlocal_validate_conditions_witness :
  outcome (validate (ProdLocal_in ambient_valid_secret)) ambient_valid_secret
    = Return tt /\
  exists m, outcome (build (ProdLocal_in ambient_valid_secret)) ambient_valid_secret
              = Return m.
Proof.
  destruct (prodlocal_validate_conditions ambient_valid_secret
              (ProdLocal_in ambient_valid_secret) ambient_valid_secret
              (ProdLocal_in_builder ambient_valid_secret))
    as (_ & _ & _ & Hok & _).
  apply (Hok secret32).
  - reflexivity.
  - reflexivity.
  - discriminate.
Defined.

(** The claim C1 as first stated, with "no secret is present" read as the
    secret being [None], fails for the builder constructed while
    [JWT_SECRET] is the empty string: a secret is present, it is not the
    placeholder and it is shorter than 32 characters, yet the error is
    [MissingSecret] and not [SecretTooShort]. *)
Lemma prodlocal_empty_secret_refutes_stated_conditions :
  ~ ((outcome (validate (ProdLocal_in ambient_empty_secret)) ambient_empty_secret
        = Raise MissingSecret <->
      jwt_secret (_config (ProdLocal_in ambient_empty_secret)) = None) /\
     (outcome (validate (ProdLocal_in ambient_empty_secret)) ambient_empty_secret
        = Raise InsecureDefaultSecret <->
      jwt_secret (_config (ProdLocal_in ambient_empty_secret))
        = Some DEV_DEFAULT_JWT_SECRET) /\
     ((exists n, outcome (validate (ProdLocal_in ambient_empty_secret))
                   ambient_empty_secret = Raise (SecretTooShort n)) <->
      (exists s, jwt_secret (_config (ProdLocal_in ambient_empty_secret)) = Some s /\
                 s <> DEV_DEFAULT_JWT_SECRET /\ String.length s < 32)) /\
     (forall s, jwt_secret (_config (ProdLocal_in ambient_empty_secret)) = Some s ->
                String.length s = 32 -> s <> DEV_DEFAULT_JWT_SECRET ->
                outcome (validate (ProdLocal_in ambient_empty_secret))
                  ambient_empty_secret = Return tt)).
Proof.
  intros (Hmissing & _ & _ & _).
  assert (Hr : outcome (validate (ProdLocal_in ambient_empty_secret))
                 ambient_empty_secret = Raise MissingSecret) by reflexivity.
  apply Hmissing in Hr. discriminate Hr.
Qed.

(** ** The overlay performed by [build] *)

(** A successful [build] is inverted into the equation that defines the
    returned dictionary, over the ambient environment of the call. *)
Ltac invert_build self p H :=
  let Henv := fresh "Henv" in
  let u := fresh "u" in
  let e := fresh "e" in
  let p' := fresh "p'" in
  pose proof (validate_environ self p) as Henv;
  unfold outcome, after, build, bind, os_environ_copy, ret in H, Henv;
  destruct (validate self p) as [[u|e] p'];
  simpl in H, Henv;
  [ injection H as H; rewrite Henv in H; clear Henv u p' | discriminate H ].

(** Lookups through the assignments and [setdefault]s of [build]. *)
Ltac lookup_steps :=
  repeat first
    [ rewrite lookup_insert_eq
    | rewrite lookup_setdefault_eq
    | rewrite lookup_insert_ne by discriminate
    | rewrite lookup_setdefault_ne by discriminate ].

(** C2. Whatever the class of the builder and the ambient environment,
    every extra variable supplied by the caller is in the dictionary returned
    by [build] with exactly the supplied value: it overrides what the earlier
    steps computed for that key and what the ambient environment holds. *)
Theorem extra_vars_always_win self p m k v :
  outcome (build self) p = Return m ->
  extra_vars (_config self) !! k = Some v ->
  m !! k = Some v.
Proof.
  intros Hm Hk. invert_build self p Hm. rewrite <- Hm.
  now apply lookup_update_Some.
Qed.

Lemma extra_vars_always_win_witness :
  exists m, outcome (build dev_with_extra) ambient_cookie = Return m /\
            m !! "COOKIE_SECURE" = Some "mine".
Proof.
  destruct (build_returns dev_with_extra ambient_cookie eq_refl) as [m Hm].
  exists m. split; [exact Hm|].
  apply (extra_vars_always_win dev_with_extra ambient_cookie m
           "COOKIE_SECURE" "mine" Hm).
  reflexivity.
Defined.

(** A datasource variable of a Postgres builder after [build]: the extra
    variable for that key when the caller supplied one, else the ambient
    value when there is one, else the connection parameter of the builder. *)
Lemma datasource_lookup self p m k configured :
  database (_config self) = POSTGRES ->
  outcome (build self) p = Return m ->
  In (k, configured) (datasource_vars (_config self)) ->
  m !! k =
    match extra_vars (_config self) !! k with
    | Some v => Some v
    | None => Some (default configured (environ p !! k))
    end.
Proof.
  intros Hdb Hm Hin.
  destruct (extra_vars (_config self) !! k) as [v|] eqn:Hextra.
  { invert_build self p Hm. rewrite <- Hm. now apply lookup_update_Some. }
  invert_build self p Hm. rewrite <- Hm.
  rewrite lookup_update_None by exact Hextra.
  rewrite Hdb. simpl DatabaseType_eqb. cbv iota.
  destruct (csp_relaxed (_config self));
    (destruct (jwt_secret (_config self)) as [s|]; [destruct (Py.truthy s)|]);
    simpl in Hin;
    destruct Hin as [Hin|[Hin|[Hin|[Hin|[]]]]];
    injection Hin as <- <-; lookup_steps; reflexivity.
Qed.


(** The Postgres builders the claim names. *)
Lemma ProdLocalBuilder_postgres p0 self :
  ProdLocalBuilder p0 self -> database (_config self) = POSTGRES.
Proof. intros Hb. now destruct (ProdLocalBuilder_inv _ _ Hb) as (_ & _ & _ & H & _). Qed.

Lemma ProdLocalBuilder_datasource_vars p0 self :
  ProdLocalBuilder p0 self ->
  datasource_vars (_config self) = datasource_vars EnvironmentConfig_new.
Proof.
  induction 1 as [self Hnew | self _ IH | extra self _ IH]; try exact IH.
  unfold outcome in Hnew. simpl in Hnew. now injection Hnew as <-.
Qed.

Lemma with_postgres_credentials_database url username password self :
  database (_config (with_postgres_credentials url username password self)) =
  database (_config self).
Proof. reflexivity. Qed.

Lemma with_postgres_credentials_datasource_vars url username password self :
  datasource_vars (_config (with_postgres_credentials url username password self)) =
  [ ("SPRING_DATASOURCE_URL", url);
    ("SPRING_DATASOURCE_USERNAME", username);
    ("SPRING_DATASOURCE_PASSWORD", password);
    ("SPRING_DATASOURCE_DRIVER_CLASS_NAME", "org.postgresql.Driver") ].
Proof. reflexivity. Qed.

Lemma DevEnvironment_init_postgres name :
  Py.lower name = "postgres" ->
  database (_config (DevEnvironment_init name)) = POSTGRES.
Proof. intros H. unfold DevEnvironment_init. now rewrite H. Qed.


(** ** The flags of the production-like builder *)

(** Without extra variables, [build] on a [ProdLocalEnvironment] sets both
    cookie flags to [true] and the profile to [prod]; it leaves [CSP_RELAXED]
    as the ambient environment has it. *)
Lemma prodlocal_build_flags p0 self p m :
  ProdLocalBuilder p0 self ->
  extra_vars (_config self) = ∅ ->
  outcome (build self) p = Return m ->
  m !! "APP_AUTH_COOKIE_SECURE" = Some "true" /\
  m !! "COOKIE_SECURE" = Some "true" /\
  m !! "SPRING_PROFILES_ACTIVE" = Some "prod" /\
  m !! "CSP_RELAXED" = environ p !! "CSP_RELAXED".
Proof.
  intros Hb Hextra Hm.
  destruct (ProdLocalBuilder_inv _ _ Hb) as (_ & Hcs & Hcsp & Hdb & Hprof & _).
  invert_build self p Hm. rewrite <- Hm. clear Hm.
  rewrite Hextra, Hcs, Hcsp, Hdb, Hprof. simpl DatabaseType_eqb. cbv iota.
  repeat split;
    (rewrite lookup_update_None by apply lookup_empty);
    (destruct (jwt_secret (_config self)) as [s|]; [destruct (Py.truthy s)|]);
    lookup_steps; reflexivity.
Qed.

(** When the ambient environment has no [CSP_RELAXED], neither has the
    dictionary built by a [ProdLocalEnvironment] without extra variables. *)
Lemma prodlocal_build_csp_absent p0 self p m :
  ProdLocalBuilder p0 self ->
  extra_vars (_config self) = ∅ ->
  environ p !! "CSP_RELAXED" = None ->
  outcome (build self) p = Return m ->
  m !! "CSP_RELAXED" = None.
Proof.
  intros Hb Hextra Hamb Hm.
  destruct (prodlocal_build_flags p0 self p m Hb Hextra Hm) as (_ & _ & _ & H).
  now rewrite H.
Qed.

(** C4, on the input where it fails. A [ProdLocalEnvironment] with a valid
    secret and no extra variables, built in a process whose ambient
    environment holds [CSP_RELAXED=true], returns a dictionary that still
    holds [CSP_RELAXED=true]: the key is not absent. *)
Theorem prodlocal_build_keeps_ambient_csp_relaxed :
  extra_vars (_config (ProdLocal_in ambient_relaxed_csp)) = ∅ /\
  is_jwt_secret_valid (jwt_secret (_config (ProdLocal_in ambient_relaxed_csp))) = true /\
  exists m,
    outcome (build (ProdLocal_in ambient_relaxed_csp)) ambient_relaxed_csp = Return m /\
    m !! "APP_AUTH_COOKIE_SECURE" = Some "true" /\
    m !! "COOKIE_SECURE" = Some "true" /\
    m !! "SPRING_PROFILES_ACTIVE" = Some "prod" /\
    m !! "CSP_RELAXED" = Some "true".
Proof.
  split; [reflexivity|]. split; [reflexivity|].
  destruct (build_returns (ProdLocal_in ambient_relaxed_csp) ambient_relaxed_csp
              eq_refl) as [m Hm].
  exists m. split; [exact Hm|].
  destruct (prodlocal_build_flags ambient_relaxed_csp
              (ProdLocal_in ambient_relaxed_csp) ambient_relaxed_csp m
              (ProdLocal_in_builder ambient_relaxed_csp) eq_refl Hm)
    as (H1 & H2 & H3 & H4).
  repeat split; [exact H1 | exact H2 | exact H3 | rewrite H4; reflexivity].
Qed.

(** ** Failure of [build] *)

(** C5. Whatever the class of the builder and the ambient environment, when
    validation fails [build] raises the same error and returns no
    dictionary, and the ambient environment of the process is what it was
    before the call. *)
Theorem failed_validation_aborts_build self p e :
  outcome (validate self) p = Raise e ->
  outcome (build self) p = Raise e /\
  (forall m, outcome (build self) p <> Return m) /\
  environ (after (build self) p) = environ p.
Proof.
  intros Hv. apply build_raise in Hv. repeat split.
  - exact Hv.
  - intros m Hm. rewrite Hv in Hm. discriminate Hm.
  - apply build_environ.
Qed.

Lemma failed_validation_aborts_build_witness :
  outcome (build (ProdLocal_in ambient_no_secret)) ambient_no_secret
    = Raise MissingSecret /\
  (forall m, outcome (build (ProdLocal_in ambient_no_secret)) ambient_no_secret
               <> Return m) /\
  environ (after (build (ProdLocal_in ambient_no_secret)) ambient_no_secret)
    = environ ambient_no_secret.
Proof.
  apply (failed_validation_aborts_build (ProdLocal_in ambient_no_secret)
           ambient_no_secret MissingSecret).
  reflexivity.
Defined.

(** ** The secret is fixed at construction *)

(** C6. A [ProdLocalEnvironment] builder reads the secret from the ambient
    environment once, at construction: the secret it holds is the value [v]
    that [JWT_SECRET] had then ([None] when it was unset), and whether
    [validate] fails and with which condition is decided by [v] alone, in
    whatever process [validate] or [build] later runs, so whatever
    [JWT_SECRET] holds at that time.  Validation succeeds exactly when [v]
    is a valid secret and fails with [MissingSecret], [InsecureDefaultSecret]
    or [SecretTooShort] exactly when [v] is absent or empty, the placeholder,
    or too short.  Two builders constructed under the same [v] have the same
    outcome, and [build] fails with the same errors. *)
Theorem prodlocal_secret_read_at_construction p0 self p :
  ProdLocalBuilder p0 self ->
  let v := environ p0 !! "JWT_SECRET" in
  jwt_secret (_config self) = v /\
  (outcome (validate self) p = Return tt <-> is_jwt_secret_valid v = true) /\
  (outcome (validate self) p = Raise MissingSecret <->
     v = None \/ v = Some EmptyString) /\
  (outcome (validate self) p = Raise InsecureDefaultSecret <->
     v = Some DEV_DEFAULT_JWT_SECRET) /\
  ((exists n, outcome (validate self) p = Raise (SecretTooShort n)) <->
     exists s, v = Some s /\ s <> EmptyString /\
               s <> DEV_DEFAULT_JWT_SECRET /\ String.length s < 32) /\
  (forall q0 other q,
     ProdLocalBuilder q0 other ->
     environ q0 !! "JWT_SECRET" = v ->
     outcome (validate self) p = outcome (validate other) q /\
     (forall e, outcome (build self) p = Raise e <->
                outcome (build other) q = Raise e)).
Proof.
  intros Hs v.
  destruct (ProdLocalBuilder_inv _ _ Hs) as (Hc1 & _ & _ & _ & _ & Hj1).
  destruct (ProdLocal_validate_verdict self p Hc1) as [V1 _].
  rewrite Hj1 in V1. fold v in V1.
  split; [exact Hj1|]. split; [|split; [|split; [|split]]].
  - rewrite is_jwt_secret_valid_verdict. split.
    + intros Hr. now rewrite Hr in V1.
    + intros V'. exact (secret_verdict_functional _ _ _ V1 V').
  - now apply verdict_missing_iff.
  - now apply verdict_insecure_iff.
  - now apply verdict_short_iff.
  - intros q0 other q Ho Hsame.
    destruct (ProdLocalBuilder_inv _ _ Ho) as (Hc2 & _ & _ & _ & _ & Hj2).
    destruct (ProdLocal_validate_verdict other q Hc2) as [V2 _].
    rewrite Hj2, Hsame in V2.
    pose proof (secret_verdict_functional _ _ _ V1 V2) as Heq.
    split; [exact Heq|].
    intros e. rewrite !build_raise. now rewrite Heq.
Qed.

Lemma prodlocal_secret_read_at_construction_witness :
  jwt_secret (_config (ProdLocal_in ambient_valid_secret)) = Some secret32 /\
  outcome (validate (ProdLocal_in ambient_valid_secret)) ambient_short_secret
    = Return tt /\
  outcome (validate (ProdLocal_in ambient_no_secret)) ambient_valid_secret
    = Raise MissingSecret.
Proof.
  destruct (prodlocal_secret_read_at_construction ambient_valid_secret
              (ProdLocal_in ambient_valid_secret) ambient_short_secret
              (ProdLocal_in_builder ambient_valid_secret))
    as (Hread & Hvalid & _).
  destruct (prodlocal_secret_read_at_construction ambient_no_secret
              (ProdLocal_in ambient_no_secret) ambient_valid_secret
              (ProdLocal_in_builder ambient_no_secret))
    as (_ & _ & Hmissing & _).
  split; [exact Hread|]. split.
  - apply Hvalid. reflexivity.
  - apply Hmissing. left. reflexivity.
Defined.

(** ** The CI builder *)

Lemma CILocal_validate_run self p :
  class_of self = CILocalEnvironment ->
  validate self p =
    if negb (Py.truthy_opt (environ p !! "NVD_API_KEY"))
    then (Return tt, {| environ := environ p;
                        stderr := stderr p +:+ NVD_WARNING +:+ Py.nl |})
    else (Return tt, p).
Proof.
  intros Hc. unfold validate. rewrite Hc.
  unfold CILocalEnvironment_validate, bind, os_environ_get, print_stderr, ret.
  now destruct (negb (Py.truthy_opt (environ p !! "NVD_API_KEY"))).
Qed.

Lemma CILocal_validate_returns self p :
  class_of self = CILocalEnvironment -> outcome (validate self) p = Return tt.
Proof.
  intros Hc. unfold outcome. rewrite CILocal_validate_run by exact Hc.
  now destruct (negb (Py.truthy_opt (environ p !! "NVD_API_KEY"))).
Qed.

(** C7, as amended. For every [CILocalEnvironment] builder and every ambient
    environment, [build] does not fail: it returns a dictionary whose keys
    are the ambient variables, the two cookie flags, the profile, the SSL
    flag and the extra variables.  The ambient environment is unchanged.
    When [NVD_API_KEY] is absent from the ambient environment, the only
    other effect is one advisory message appended to the diagnostic stream,
    a text of two lines; when it is set to a non-empty value there is no
    other effect at all. *)
Theorem cilocal_build_never_fails self p :
  CILocalBuilder self ->
  (exists m, outcome (build self) p = Return m /\
             dom m = {[ "APP_AUTH_COOKIE_SECURE"; "COOKIE_SECURE";
                        "SPRING_PROFILES_ACTIVE"; "REQUIRE_SSL" ]}
                     ∪ dom (environ p) ∪ dom (extra_vars (_config self))) /\
  (forall e, outcome (build self) p <> Raise e) /\
  (environ p !! "NVD_API_KEY" = None ->
     after (build self) p =
       {| environ := environ p;
          stderr := stderr p +:+ NVD_WARNING +:+ Py.nl |}) /\
  Py.count_lines (NVD_WARNING +:+ Py.nl) = 2 /\
  (forall key, environ p !! "NVD_API_KEY" = Some key -> key <> EmptyString ->
     after (build self) p = p).
Proof.
  intros Hb.
  destruct (CILocalBuilder_inv _ Hb) as (Hc & _ & Hcsp & Hdb & _ & _ & Hj).
  pose proof (CILocal_validate_returns self p Hc) as Hv.
  destruct (build_returns self p Hv) as [m Hm].
  split; [|split; [|split; [|split]]].
  - exists m. split; [exact Hm|].
    invert_build self p Hm. rewrite <- Hm. clear Hm.
    rewrite Hcsp, Hj, Hdb. simpl. unfold Py.update.
    rewrite dom_union_L, !dom_insert_L.
    apply set_eq. intros k.
    rewrite !elem_of_union, !elem_of_singleton. tauto.
  - intros e He. rewrite Hm in He. discriminate He.
  - intros Hkey. rewrite build_after. unfold after.
    rewrite CILocal_validate_run by exact Hc. now rewrite Hkey.
  - reflexivity.
  - intros key Hkey Hne. rewrite build_after. unfold after.
    rewrite CILocal_validate_run by exact Hc. rewrite Hkey. simpl.
    apply truthy_true in Hne. now rewrite Hne.
Qed.

Lemma cilocal_build_never_fails_witness :
  after (build CILocalEnvironment_init) ambient_bare =
    {| environ := environ ambient_bare;
       stderr := stderr ambient_bare +:+ NVD_WARNING +:+ Py.nl |}.
Proof.
  destruct (cilocal_build_never_fails CILocalEnvironment_init ambient_bare
              CILocal_new) as (_ & _ & Hwarn & _).
  apply Hwarn. reflexivity.
Defined.

(** The claim C7 as first stated fails where it speaks of a single line: for
    the builder [CILocalEnvironment()] in a process with an empty ambient
    environment, the text that [build] appends to the diagnostic stream is
    not one line. *)
Lemma cilocal_warning_is_not_a_single_line :
  environ ambient_bare !! "NVD_API_KEY" = None /\
  ~ (exists line,
       Py.count_lines line = 1 /\
       stderr (after (build CILocalEnvironment_init) ambient_bare)
         = stderr ambient_bare +:+ line).
Proof.
  split; [reflexivity|].
  intros (line & Hone & Htext).
  change (stderr ambient_bare +:+ line) with line in Htext.
  rewrite <- Htext in Hone. vm_compute in Hone. discriminate Hone.
Qed.

(** ** Idempotence *)

Lemma validate_outcome_environ self p q :
  environ p = environ q ->
  outcome (validate self) p = outcome (validate self) q.
Proof.
  intros Henv. unfold outcome, validate.
  destruct (class_of self) eqn:Hc.
  - reflexivity.
  - unfold ProdLocalEnvironment_validate.
    destruct (jwt_secret (_config self)) as [s|]; [|reflexivity].
    destruct (negb (Py.truthy s)); [reflexivity|].
    destruct (String.eqb s DEV_DEFAULT_JWT_SECRET); [reflexivity|].
    destruct (String.length s <? 32)%nat; reflexivity.
  - unfold CILocalEnvironment_validate, bind, os_environ_get. simpl.
    rewrite Henv.
    now destruct (negb (Py.truthy_opt (environ q !! "NVD_API_KEY"))).
Qed.

Lemma build_outcome_environ self p q :
  environ p = environ q ->
  outcome (build self) p = outcome (build self) q.
Proof.
  intros Henv.
  pose proof (validate_outcome_environ self p q Henv) as Hout.
  pose proof (validate_environ self p) as Hp.
  pose proof (validate_environ self q) as Hq.
  unfold outcome, after, build, bind, os_environ_copy, ret in *.
  destruct (validate self p) as [[u|e] p'], (validate self q) as [[u'|e'] q'];
    simpl in *; try discriminate Hout.
  - rewrite Hp, Hq, Henv. reflexivity.
  - congruence.
Qed.

(** C8. For a builder of any class, a second [build] on the same builder,
    with no chained method in between, returns what the first returned
    whenever the ambient environment is the same; in particular when the
    second call runs in the process left by the first. *)
Theorem build_twice_identical self p :
  (forall q, environ q = environ p ->
             outcome (build self) q = outcome (build self) p) /\
  outcome (build self) (after (build self) p) = outcome (build self) p.
Proof.
  split.
  - intros q Hq. now apply build_outcome_environ.
  - apply build_outcome_environ. apply build_environ.
Qed.

Lemma build_twice_identical_witness :
  outcome (build CILocalEnvironment_init) ambient_home_later
    = outcome (build CILocalEnvironment_init) ambient_home.
Proof.
  destruct (build_twice_identical CILocalEnvironment_init ambient_home)
    as [Hsame _].
  apply Hsame. reflexivity.
Defined.

(** * Further properties *)

(** ** Strings *)

Section Strings.
Implicit Types (s a b r : string).

Lemma append_nil_l r : EmptyString +:+ r = r.
Proof. reflexivity. Qed.

Lemma append_cons c a r : String c a +:+ r = String c (a +:+ r).
Proof. reflexivity. Qed.

(** [String.append] does not unfold under [simpl]; its two equations are
    used as rewrite rules. *)
Ltac simpl_append := rewrite ?append_cons, ?append_nil_l in *; simpl in *.

Lemma length_append a b :
  String.length (a +:+ b) = String.length a + String.length b.
Proof. induction a as [|c a IH]; simpl_append; [reflexivity | now rewrite IH]. Qed.

Lemma append_empty_r s : s +:+ EmptyString = s.
Proof. induction s as [|c s IH]; simpl_append; [reflexivity | now rewrite IH]. Qed.

Lemma append_assoc a b r : (a +:+ b) +:+ r = a +:+ b +:+ r.
Proof. induction a as [|c a IH]; simpl_append; [reflexivity | now rewrite IH]. Qed.

Lemma substring_prefix a r :
  String.substring 0 (String.length a) (a +:+ r) = a.
Proof.
  induction a as [|c a IH]; simpl_append.
  - now destruct r.
  - now rewrite IH.
Qed.

Lemma substring_skip a n r :
  String.substring (String.length a) n (a +:+ r) = String.substring 0 n r.
Proof. induction a as [|c a IH]; simpl_append; [reflexivity | exact IH]. Qed.

Lemma substring_all s : String.substring 0 (String.length s) s = s.
Proof. induction s as [|c s IH]; simpl; [reflexivity | now rewrite IH]. Qed.

Lemma substring_split n s :
  n <= String.length s ->
  s = String.substring 0 n s +:+ String.substring n (String.length s - n) s.
Proof.
  revert n. induction s as [|c s IH]; intros [|n] Hn; simpl in *.
  - reflexivity.
  - lia.
  - rewrite append_nil_l. now rewrite substring_all.
  - rewrite append_cons. f_equal. apply IH. lia.
Qed.

Lemma length_substring k n s :
  k + n <= String.length s -> String.length (String.substring k n s) = n.
Proof.
  revert k n. induction s as [|c s IH]; intros [|k] [|n] Hn; simpl in *;
    try reflexivity; try lia.
  - f_equal. apply (IH 0 n). lia.
  - apply (IH k 0). lia.
  - apply (IH k (S n)). lia.
Qed.

Lemma append_inj_length a a' r r' :
  String.length a = String.length a' ->
  a +:+ r = a' +:+ r' -> a = a' /\ r = r'.
Proof.
  revert a'. induction a as [|c a IH]; intros [|c' a'] Hlen Heq;
    simpl_append; try discriminate.
  - now split.
  - injection Heq as -> Heq. injection Hlen as Hlen.
    destruct (IH a' Hlen Heq) as [-> ->]. now split.
Qed.

End Strings.

(** ** Masking *)

Lemma mask_long value :
  4 < String.length value ->
  mask_sensitive_value value =
    PyStr.slice_to 2 value +:+ "..." +:+ PyStr.slice_last 2 value /\
  String.length (PyStr.slice_to 2 value) = 2 /\
  String.length (PyStr.slice_last 2 value) = 2.
Proof.
  intros Hlen. unfold mask_sensitive_value, PyStr.slice_to, PyStr.slice_last.
  destruct (String.length value <=? 4)%nat eqn:Hle.
  - apply Nat.leb_le in Hle. lia.
  - repeat split; apply length_substring; lia.
Qed.

Lemma mask_short value :
  String.length value <= 4 -> mask_sensitive_value value = "****".
Proof.
  intros Hlen. unfold mask_sensitive_value.
  apply Nat.leb_le in Hlen. now rewrite Hlen.
Qed.

(** X1. [mask_sensitive_value] turns every value of at most four characters,
    the empty one included, into the four stars; a longer value is two
    characters, a non-empty middle and two characters, and the result is
    the first two, three dots and the last two: the middle is dropped
    whatever its length. *)
Theorem mask_sensitive_value_shape :
  (forall value, String.length value <= 4 ->
     mask_sensitive_value value = "****") /\
  (forall a mid b,
     String.length a = 2 -> String.length b = 2 -> mid <> EmptyString ->
     mask_sensitive_value (a +:+ mid +:+ b) = a +:+ "..." +:+ b) /\
  (forall value, 4 < String.length value ->
     exists a mid b,
       value = a +:+ mid +:+ b /\ String.length a = 2 /\
       String.length b = 2 /\ mid <> EmptyString).
Proof.
  split; [exact mask_short|]. split.
  - intros a mid b Ha Hb Hmid.
    assert (Hm : 0 < String.length mid).
    { destruct mid; [congruence | simpl; lia]. }
    assert (Hlen : 4 < String.length (a +:+ mid +:+ b)).
    { rewrite !length_append. lia. }
    destruct (mask_long _ Hlen) as (-> & _ & _).
    unfold PyStr.slice_to, PyStr.slice_last. f_equal.
    + rewrite <- Ha. apply substring_prefix.
    + f_equal.
      rewrite <- append_assoc.
      replace (String.length ((a +:+ mid) +:+ b) - 2)
        with (String.length (a +:+ mid))
        by (rewrite !length_append; lia).
      rewrite substring_skip, <- Hb. apply substring_all.
  - intros value Hlen.
    exists (String.substring 0 2 value),
           (String.substring 0 (String.length value - 4)
              (String.substring 2 (String.length value - 2) value)),
           (String.substring (String.length value - 4)
              (String.length value - 2 - (String.length value - 4))
              (String.substring 2 (String.length value - 2) value)).
    assert (Hrest : String.length (String.substring 2 (String.length value - 2) value)
                    = String.length value - 2)
      by (apply length_substring; lia).
    repeat split.
    + rewrite (substring_split 2 value) at 1 by lia. f_equal.
      rewrite (substring_split (String.length value - 4)
                 (String.substring 2 (String.length value - 2) value)) at 1
        by lia.
      now rewrite Hrest.
    + apply length_substring. lia.
    + rewrite length_substring; lia.
    + intros Hmid.
      assert (Hl : String.length
                (String.substring 0 (String.length value - 4)
                   (String.substring 2 (String.length value - 2) value))
              = String.length value - 4)
        by (apply length_substring; lia).
      rewrite Hmid in Hl. simpl in Hl. lia.
Qed.

Lemma mask_sensitive_value_shape_witness :
  mask_sensitive_value "secret123" = "se...23".
Proof.
  destruct mask_sensitive_value_shape as (_ & Hlong & _).
  apply (Hlong "se" "cret1" "23").
  - reflexivity.
  - reflexivity.
  - discriminate.
Defined.

(** X2. What a mask gives away: two values have the same mask exactly when
    both have at most four characters, or both have more and agree on their
    first two and on their last two characters.  The mask has four
    characters in the first case and seven in the second, so it does not
    tell the length of a long value. *)
Theorem mask_sensitive_value_eq_iff v w :
  (mask_sensitive_value v = mask_sensitive_value w <->
     (String.length v <= 4 /\ String.length w <= 4) \/
     (4 < String.length v /\ 4 < String.length w /\
      PyStr.slice_to 2 v = PyStr.slice_to 2 w /\
      PyStr.slice_last 2 v = PyStr.slice_last 2 w)) /\
  String.length (mask_sensitive_value v) =
    (if (String.length v <=? 4)%nat then 4 else 7).
Proof.
  assert (Hlen : forall x, String.length (mask_sensitive_value x) =
                           if (String.length x <=? 4)%nat then 4 else 7).
  { intros x. destruct (String.length x <=? 4)%nat eqn:Hx.
    - apply Nat.leb_le in Hx. now rewrite mask_short.
    - apply Nat.leb_gt in Hx. destruct (mask_long x Hx) as (-> & H1 & H2).
      rewrite !length_append, H1, H2. reflexivity. }
  split; [|apply Hlen].
  split.
  - intros Heq.
    pose proof (Hlen v) as Hv. pose proof (Hlen w) as Hw. rewrite Heq in Hv.
    destruct (String.length v <=? 4)%nat eqn:Ev,
             (String.length w <=? 4)%nat eqn:Ew; try lia.
    + left. apply Nat.leb_le in Ev, Ew. now split.
    + right. apply Nat.leb_gt in Ev, Ew.
      destruct (mask_long v Ev) as (Mv & V1 & V2).
      destruct (mask_long w Ew) as (Mw & W1 & W2).
      rewrite Mv, Mw in Heq.
      apply append_inj_length in Heq as [Hpre Hsuf]; [|lia].
      injection Hsuf as Hsuf. auto.
  - intros [[Hv Hw] | (Hv & Hw & Hpre & Hsuf)].
    + now rewrite !mask_short.
    + destruct (mask_long v Hv) as (-> & _). destruct (mask_long w Hw) as (-> & _).
      now rewrite Hpre, Hsuf.
Qed.

Lemma mask_sensitive_value_eq_iff_witness :
  mask_sensitive_value "secret123" = mask_sensitive_value "several other words 23".
Proof.
  destruct (mask_sensitive_value_eq_iff "secret123" "several other words 23")
    as [[_ Hsame] _].
  apply Hsame. right. repeat split; simpl; lia.
Defined.

(** ** Lookups in a built dictionary *)

Section Lookups.
Implicit Types (d other : gmap string string) (k v : string).

Lemma lookup_setdefault k0 v k d :
  Py.setdefault k0 v d !! k =
    if decide (k0 = k) then Some (default v (d !! k)) else d !! k.
Proof.
  case_decide as Hk.
  - subst k. apply lookup_setdefault_eq.
  - now apply lookup_setdefault_ne.
Qed.

Lemma lookup_update d other k :
  Py.update d other !! k =
    match other !! k with
    | Some v => Some v
    | None => d !! k
    end.
Proof.
  destruct (other !! k) as [v|] eqn:Hk.
  - now apply lookup_update_Some.
  - now apply lookup_update_None.
Qed.

(** The lookup of a key after one step of [build] depends only on the
    lookup of that key before the step. *)
Lemma setdefault_lookup_congr k0 v d d' k :
  d !! k = d' !! k -> Py.setdefault k0 v d !! k = Py.setdefault k0 v d' !! k.
Proof. intros H. rewrite !lookup_setdefault. case_decide; congruence. Qed.

Lemma insert_lookup_congr k0 v d d' k :
  d !! k = d' !! k -> <[k0 := v]> d !! k = <[k0 := v]> d' !! k.
Proof. intros H. rewrite !lookup_insert. case_decide; congruence. Qed.

Lemma update_lookup_congr other d d' k :
  d !! k = d' !! k -> Py.update d other !! k = Py.update d' other !! k.
Proof. intros H. rewrite !lookup_update. now destruct (other !! k). Qed.

(** No step of [build] removes a key. *)
Lemma is_Some_insert k0 v d k :
  is_Some (d !! k) -> is_Some (<[k0 := v]> d !! k).
Proof. intros H. rewrite lookup_insert. case_decide; eauto. Qed.

Lemma is_Some_setdefault k0 v d k :
  is_Some (d !! k) -> is_Some (Py.setdefault k0 v d !! k).
Proof. intros H. rewrite lookup_setdefault. case_decide; eauto. Qed.

Lemma is_Some_update other d k :
  is_Some (d !! k) -> is_Some (Py.update d other !! k).
Proof. intros H. rewrite lookup_update. destruct (other !! k); eauto. Qed.

End Lookups.

(** The cases of the conditional steps of [build]. *)
Ltac build_cases self :=
  destruct (csp_relaxed (_config self));
  (let s := fresh "s" in
   destruct (jwt_secret (_config self)) as [s|]; [destruct (Py.truthy s)|]);
  destruct (database (_config self));
  simpl DatabaseType_eqb; cbv iota.

Lemma not_In_managed_keys k :
  ~ In k managed_keys ->
  "APP_AUTH_COOKIE_SECURE" <> k /\ "COOKIE_SECURE" <> k /\
  "SPRING_PROFILES_ACTIVE" <> k /\ "CSP_RELAXED" <> k /\
  "JWT_SECRET" <> k /\ "REQUIRE_SSL" <> k /\
  "SPRING_DATASOURCE_URL" <> k /\ "SPRING_DATASOURCE_USERNAME" <> k /\
  "SPRING_DATASOURCE_PASSWORD" <> k /\
  "SPRING_DATASOURCE_DRIVER_CLASS_NAME" <> k.
Proof.
  intros Hk. unfold managed_keys in Hk. simpl In in Hk.
  repeat split; intros <-; apply Hk; auto 15.
Qed.

(** [build] never removes an ambient variable. *)
Lemma build_lookup_ambient self p m k :
  outcome (build self) p = Return m ->
  is_Some (environ p !! k) -> is_Some (m !! k).
Proof.
  intros Hm Ha. invert_build self p Hm. rewrite <- Hm. clear Hm.
  apply is_Some_update.
  build_cases self;
    repeat first [ apply is_Some_setdefault | apply is_Some_insert ];
    exact Ha.
Qed.

(** [build] leaves a variable alone when it is none of the managed keys and
    has no extra variable. *)
Lemma build_lookup_unmanaged self p m k :
  outcome (build self) p = Return m ->
  ~ In k managed_keys ->
  extra_vars (_config self) !! k = None ->
  m !! k = environ p !! k.
Proof.
  intros Hm Hk Hextra. invert_build self p Hm. rewrite <- Hm. clear Hm.
  rewrite lookup_update, Hextra.
  destruct (not_In_managed_keys k Hk)
    as (H1 & H2 & H3 & H4 & H5 & H6 & H7 & H8 & H9 & H10).
  build_cases self;
    repeat first [ rewrite lookup_setdefault_ne by assumption
                 | rewrite lookup_insert_ne by assumption ];
    reflexivity.
Qed.

(** X3. Whatever the builder and the ambient environment, the dictionary
    returned by [build] keeps every ambient variable as a key, and every key
    it has is an ambient variable, one of the ten keys that [build] assigns
    by itself, or an extra variable. *)
Theorem build_keys self p m :
  outcome (build self) p = Return m ->
  dom (environ p) ⊆ dom m /\
  (forall k, k ∈ dom m ->
     k ∈ dom (environ p) \/ In k managed_keys \/
     k ∈ dom (extra_vars (_config self))).
Proof.
  intros Hm. split.
  - intros k Hk. apply elem_of_dom. apply elem_of_dom in Hk.
    now apply (build_lookup_ambient self p m k).
  - intros k Hk. rewrite !elem_of_dom. apply elem_of_dom in Hk.
    destruct (In_dec string_dec k managed_keys) as [Hin | Hout]; [auto|].
    destruct (extra_vars (_config self) !! k) as [v|] eqn:Hextra; [eauto|].
    left. now rewrite <- (build_lookup_unmanaged self p m k Hm Hout Hextra).
Qed.

Lemma build_keys_witness :
  exists m, outcome (build dev_custom_postgres) ambient_datasource = Return m /\
            dom (environ ambient_datasource) ⊆ dom m.
Proof.
  destruct (build_returns dev_custom_postgres ambient_datasource eq_refl)
    as [m Hm].
  exists m. split; [exact Hm|].
  now destruct (build_keys dev_custom_postgres ambient_datasource m Hm).
Defined.

(** X4. A variable that is none of the ten keys managed by [build] and has
    no extra variable goes through [build] untouched: it has the ambient
    value when the ambient environment has it, and is absent otherwise. *)
Theorem build_passes_unmanaged self p m k :
  outcome (build self) p = Return m ->
  ~ In k managed_keys ->
  extra_vars (_config self) !! k = None ->
  (forall a, environ p !! k = Some a -> m !! k = Some a) /\
  (environ p !! k = None -> m !! k = None).
Proof.
  intros Hm Hk Hextra.
  rewrite (build_lookup_unmanaged self p m k Hm Hk Hextra). now split.
Qed.

Lemma build_passes_unmanaged_witness :
  exists m, outcome (build CILocalEnvironment_init) ambient_home = Return m /\
            m !! "HOME" = Some "/root".
Proof.
  destruct (build_returns CILocalEnvironment_init ambient_home eq_refl)
    as [m Hm].
  exists m. split; [exact Hm|].
  apply (build_passes_unmanaged CILocalEnvironment_init ambient_home m "HOME" Hm).
  - unfold managed_keys. simpl. intros H.
    repeat (destruct H as [H|H]; [discriminate H|]). exact H.
  - reflexivity.
  - reflexivity.
Defined.

(** ** Validation reads the class and the secret only *)

Lemma validate_same a b p :
  class_of a = class_of b ->
  jwt_secret (_config a) = jwt_secret (_config b) ->
  validate a p = validate b p.
Proof.
  intros Hc Hj. unfold validate. rewrite Hc.
  destruct (class_of b); try reflexivity.
  unfold ProdLocalEnvironment_validate. now rewrite Hj.
Qed.

(** ** The development builder *)

Lemma DevBuilderOf_DevBuilder name self :
  DevBuilderOf name self -> DevBuilder self.
Proof. induction 1; now constructor. Qed.

Lemma DevBuilderOf_inv name self :
  DevBuilderOf name self ->
  if String.eqb (Py.lower name) "postgres"
  then database (_config self) = POSTGRES /\ spring_profile (_config self) = DEV
  else database (_config self) = H2 /\ spring_profile (_config self) = DEFAULT.
Proof.
  induction 1 as [| url username password self _ IH | extra self _ IH].
  - unfold DevEnvironment_init.
    destruct (String.eqb (Py.lower name) "postgres"); now simpl.
  - destruct (String.eqb (Py.lower name) "postgres"); exact IH.
  - destruct (String.eqb (Py.lower name) "postgres"); exact IH.
Qed.

(** X5. [build] on a development builder never fails, whatever database
    name it was constructed with and whatever the ambient environment holds
    (a missing or insecure [JWT_SECRET] included), and it has no effect on
    the process: nothing is written to the diagnostic stream. *)
Theorem dev_build_never_fails self p :
  DevBuilder self ->
  exists m, build self p = (Return m, p).
Proof.
  intros Hb. pose proof (dev_validate_never_fails self p Hb) as Hv.
  unfold build, bind, os_environ_copy, ret. rewrite Hv. eauto.
Qed.

Lemma dev_build_never_fails_witness :
  exists m, build (DevEnvironment_init "no such database") ambient_no_secret
              = (Return m, ambient_no_secret).
Proof.
  apply (dev_build_never_fails (DevEnvironment_init "no such database")
           ambient_no_secret).
  constructor.
Defined.

(** X6. In the dictionary built by a development builder, both cookie flags
    are ["false"], [CSP_RELAXED] is ["true"] and [REQUIRE_SSL] is ["false"],
    whatever values the ambient environment has for these keys; only an
    extra variable for the key changes that. *)
Theorem dev_build_flags self p m k v :
  DevBuilder self ->
  outcome (build self) p = Return m ->
  In (k, v) [ ("APP_AUTH_COOKIE_SECURE", "false"); ("COOKIE_SECURE", "false");
              ("CSP_RELAXED", "true"); ("REQUIRE_SSL", "false") ] ->
  extra_vars (_config self) !! k = None ->
  m !! k = Some v.
Proof.
  intros Hb Hm Hin Hextra.
  destruct (DevBuilder_inv _ Hb) as (_ & Hcs & Hcsp & Hssl & Hj).
  invert_build self p Hm. rewrite <- Hm. clear Hm.
  rewrite lookup_update, Hextra, Hcs, Hcsp, Hssl, Hj.
  simpl in Hin.
  destruct (database (_config self)); simpl DatabaseType_eqb; cbv iota;
    destruct Hin as [Hin|[Hin|[Hin|[Hin|[]]]]];
    injection Hin as <- <-; lookup_steps; reflexivity.
Qed.

Lemma dev_build_flags_witness :
  exists m, outcome (build dev_custom_postgres) ambient_cookie = Return m /\
            m !! "COOKIE_SECURE" = Some "false".
Proof.
  destruct (build_returns dev_custom_postgres ambient_cookie eq_refl) as [m Hm].
  exists m. split; [exact Hm|].
  apply (dev_build_flags dev_custom_postgres ambient_cookie m
           "COOKIE_SECURE" "false").
  - repeat constructor.
  - exact Hm.
  - simpl. right. left. reflexivity.
  - reflexivity.
Defined.

(** X7. A development builder uses Postgres exactly when the lowered
    database name is ["postgres"]: then the profile is ["dev"] and the four
    datasource variables are in the built dictionary.  Any other name, an
    unknown one included, is accepted and gives H2: the profile is
    ["default"] and each datasource variable is left as the ambient
    environment has it, also after [with_postgres_credentials]. *)
Theorem dev_database_choice name self p m :
  DevBuilderOf name self ->
  outcome (build self) p = Return m ->
  (Py.lower name = "postgres" ->
     (extra_vars (_config self) !! "SPRING_PROFILES_ACTIVE" = None ->
        m !! "SPRING_PROFILES_ACTIVE" = Some "dev") /\
     (forall k configured,
        In (k, configured) (datasource_vars (_config self)) ->
        is_Some (m !! k))) /\
  (Py.lower name <> "postgres" ->
     (extra_vars (_config self) !! "SPRING_PROFILES_ACTIVE" = None ->
        m !! "SPRING_PROFILES_ACTIVE" = Some "default") /\
     (forall k configured,
        In (k, configured) (datasource_vars (_config self)) ->
        extra_vars (_config self) !! k = None ->
        m !! k = environ p !! k)).
Proof.
  intros Hb Hm.
  pose proof (DevBuilderOf_inv name self Hb) as Hinv.
  destruct (DevBuilder_inv _ (DevBuilderOf_DevBuilder _ _ Hb))
    as (_ & _ & Hcsp & _ & Hj).
  split.
  - intros Hname. rewrite Hname in Hinv. simpl in Hinv.
    destruct Hinv as [Hdb Hprof]. split.
    + intros Hextra. invert_build self p Hm. rewrite <- Hm. clear Hm.
      rewrite lookup_update, Hextra, Hcsp, Hj, Hdb, Hprof.
      simpl DatabaseType_eqb. cbv iota. lookup_steps. reflexivity.
    + intros k configured Hin.
      rewrite (datasource_lookup self p m k configured Hdb Hm Hin).
      destruct (extra_vars (_config self) !! k); eauto.
  - intros Hname. apply String.eqb_neq in Hname. rewrite Hname in Hinv.
    destruct Hinv as [Hdb Hprof]. split.
    + intros Hextra. invert_build self p Hm. rewrite <- Hm. clear Hm.
      rewrite lookup_update, Hextra, Hcsp, Hj, Hdb, Hprof.
      simpl DatabaseType_eqb. cbv iota. lookup_steps. reflexivity.
    + intros k configured Hin Hextra.
      invert_build self p Hm. rewrite <- Hm. clear Hm.
      rewrite lookup_update, Hextra, Hcsp, Hj, Hdb.
      simpl DatabaseType_eqb. cbv iota. simpl in Hin.
      destruct Hin as [Hin|[Hin|[Hin|[Hin|[]]]]];
        injection Hin as <- <-; lookup_steps; reflexivity.
Qed.

Lemma dev_database_choice_witness :
  exists m, outcome (build (DevEnvironment_init "PostGres")) ambient_bare = Return m /\
            m !! "SPRING_PROFILES_ACTIVE" = Some "dev".
Proof.
  destruct (build_returns (DevEnvironment_init "PostGres") ambient_bare eq_refl)
    as [m Hm].
  exists m. split; [exact Hm|].
  destruct (dev_database_choice "PostGres" (DevEnvironment_init "PostGres")
              ambient_bare m (DevOf_new "PostGres") Hm) as [Hpg _].
  destruct (Hpg eq_refl) as [Hprof _].
  apply Hprof. reflexivity.
Defined.

(** X8. On a builder whose database is H2, [with_postgres_credentials] has
    no effect on [build]: the result and the process are the same as
    without the call. *)
Theorem credentials_ignored_on_h2 url username password self p :
  database (_config self) = H2 ->
  build (with_postgres_credentials url username password self) p = build self p.
Proof.
  intros Hdb. unfold build, bind.
  rewrite (validate_same (with_postgres_credentials url username password self)
             self p eq_refl eq_refl).
  destruct (validate self p) as [[u|e] p']; [|reflexivity].
  unfold os_environ_copy, ret. simpl. now rewrite Hdb.
Qed.

Lemma credentials_ignored_on_h2_witness :
  build (with_postgres_credentials "jdbc:postgresql://custom:5432/mydb"
           "myuser" "mypass" (DevEnvironment_init "h2")) ambient_bare
  = build (DevEnvironment_init "h2") ambient_bare.
Proof.
  apply (credentials_ignored_on_h2 "jdbc:postgresql://custom:5432/mydb"
           "myuser" "mypass" (DevEnvironment_init "h2") ambient_bare).
  reflexivity.
Defined.

(** ** The production-like builder, continued *)

(** X9. For a production-like builder, validation succeeds exactly when
    the standalone helper [is_jwt_secret_valid] accepts the secret read at
    construction, and [build] returns a dictionary exactly in that case:
    the two checks of the module agree. *)
Theorem prodlocal_validate_agrees_with_helper p0 self p :
  ProdLocalBuilder p0 self ->
  (outcome (validate self) p = Return tt <->
     is_jwt_secret_valid (environ p0 !! "JWT_SECRET") = true) /\
  ((exists m, outcome (build self) p = Return m) <->
     is_jwt_secret_valid (environ p0 !! "JWT_SECRET") = true).
Proof.
  intros Hb.
  destruct (ProdLocalBuilder_inv _ _ Hb) as (Hc & _ & _ & _ & _ & Hj).
  destruct (ProdLocal_validate_verdict self p Hc) as [V _].
  rewrite Hj in V.
  assert (Hv : outcome (validate self) p = Return tt <->
               is_jwt_secret_valid (environ p0 !! "JWT_SECRET") = true).
  { rewrite is_jwt_secret_valid_verdict. split.
    - intros Hr. now rewrite Hr in V.
    - intros V'. exact (secret_verdict_functional _ _ _ V V'). }
  split; [exact Hv|].
  rewrite <- Hv. split.
  - intros [m Hm]. now apply (build_return_validate self p m).
  - apply build_returns.
Qed.

Lemma prodlocal_validate_agrees_with_helper_witness :
  (exists m, outcome (build (ProdLocal_in ambient_valid_secret)) ambient_bare
               = Return m) <->
  is_jwt_secret_valid (environ ambient_valid_secret !! "JWT_SECRET") = true.
Proof.
  apply (prodlocal_validate_agrees_with_helper ambient_valid_secret
           (ProdLocal_in ambient_valid_secret) ambient_bare).
  apply ProdLocal_in_builder.
Defined.

(** X10. A dictionary built by a production-like builder carries under
    [JWT_SECRET] the secret read at construction, which the helper accepts,
    whatever value [JWT_SECRET] has in the ambient environment at the time
    of [build]; only an extra variable for that key changes it. *)
Theorem prodlocal_build_carries_secret p0 self p m :
  ProdLocalBuilder p0 self ->
  outcome (build self) p = Return m ->
  extra_vars (_config self) !! "JWT_SECRET" = None ->
  m !! "JWT_SECRET" = environ p0 !! "JWT_SECRET" /\
  is_jwt_secret_valid (m !! "JWT_SECRET") = true.
Proof.
  intros Hb Hm Hextra.
  destruct (ProdLocalBuilder_inv _ _ Hb) as (Hc & _ & Hcsp & Hdb & _ & Hj).
  destruct (ProdLocal_validate_verdict self p Hc) as [V _].
  rewrite (build_return_validate self p m Hm), Hj in V.
  assert (Hs : m !! "JWT_SECRET" = environ p0 !! "JWT_SECRET").
  { invert_build self p Hm. rewrite <- Hm. clear Hm.
    rewrite lookup_update, Hextra, Hcsp, Hdb, Hj.
    simpl DatabaseType_eqb. cbv iota.
    inversion V as [ | | | | s Hne Hnd Hlen Hs ].
    apply truthy_true in Hne. rewrite Hne.
    lookup_steps. reflexivity. }
  split; [exact Hs|].
  rewrite Hs. now apply is_jwt_secret_valid_verdict.
Qed.

Lemma prodlocal_build_carries_secret_witness :
  exists m, outcome (build (ProdLocal_in ambient_valid_secret)) ambient_short_secret
              = Return m /\
            m !! "JWT_SECRET" = Some secret32.
Proof.
  destruct (build_returns (ProdLocal_in ambient_valid_secret)
              ambient_short_secret eq_refl) as [m Hm].
  exists m. split; [exact Hm|].
  destruct (prodlocal_build_carries_secret ambient_valid_secret
              (ProdLocal_in ambient_valid_secret) ambient_short_secret m
              (ProdLocal_in_builder ambient_valid_secret) Hm eq_refl)
    as [Hs _].
  exact Hs.
Defined.

(** X11. [with_https] changes one thing in what [build] returns: a
    builder with the call fails exactly when the builder without it fails,
    with the same error; when both succeed the two dictionaries agree on
    every key other than [REQUIRE_SSL], and [REQUIRE_SSL] is ["true"] after
    the call, whatever the ambient environment has for it, unless an extra
    variable sets that key. *)
Theorem with_https_only_sets_require_ssl p0 self p :
  ProdLocalBuilder p0 self ->
  (forall e, outcome (build (with_https self)) p = Raise e <->
             outcome (build self) p = Raise e) /\
  (forall m, outcome (build self) p = Return m ->
     exists m', outcome (build (with_https self)) p = Return m' /\
       (forall k, k <> "REQUIRE_SSL" -> m' !! k = m !! k) /\
       (extra_vars (_config self) !! "REQUIRE_SSL" = None ->
          m' !! "REQUIRE_SSL" = Some "true")).
Proof.
  intros _.
  assert (Hv : validate (with_https self) p = validate self p)
    by (apply validate_same; reflexivity).
  split.
  - intros e. rewrite !build_raise. unfold outcome. now rewrite Hv.
  - intros m Hm.
    pose proof (build_return_validate self p m Hm) as Hok.
    assert (Hok' : outcome (validate (with_https self)) p = Return tt)
      by (unfold outcome; rewrite Hv; exact Hok).
    destruct (build_returns (with_https self) p Hok') as [m' Hm'].
    exists m'. split; [exact Hm'|]. clear Hv Hok Hok'.
    invert_build self p Hm. invert_build (with_https self) p Hm'.
    rewrite <- Hm, <- Hm'. clear Hm Hm'. simpl. split.
    + intros k Hk. apply update_lookup_congr.
      destruct (database (_config self)); simpl DatabaseType_eqb; cbv iota;
        repeat apply setdefault_lookup_congr;
        rewrite !(lookup_insert_ne _ "REQUIRE_SSL") by congruence;
        reflexivity.
    + intros Hextra. rewrite lookup_update, Hextra.
      destruct (database (_config self)); simpl DatabaseType_eqb; cbv iota;
        lookup_steps; reflexivity.
Qed.

Lemma with_https_only_sets_require_ssl_witness :
  exists m', outcome (build (with_https (ProdLocal_in ambient_valid_secret)))
               ambient_valid_secret = Return m' /\
             m' !! "REQUIRE_SSL" = Some "true".
Proof.
  destruct (with_https_only_sets_require_ssl ambient_valid_secret
              (ProdLocal_in ambient_valid_secret) ambient_valid_secret
              (ProdLocal_in_builder ambient_valid_secret)) as [_ Hok].
  destruct (build_returns (ProdLocal_in ambient_valid_secret)
              ambient_valid_secret eq_refl) as [m Hm].
  destruct (Hok m Hm) as (m' & Hm' & _ & Hssl).
  exists m'. split; [exact Hm'|]. apply Hssl. reflexivity.
Defined.

(** ** The CI builder and the builders without a secret *)

Lemma append_neq_self (s t : string) : t <> EmptyString -> s +:+ t <> s.
Proof.
  intros Ht Heq. apply Ht.
  assert (Hlen : String.length t = 0); [|now destruct t].
  apply (f_equal String.length) in Heq. rewrite length_append in Heq. lia.
Qed.

(** X12. [build] on a CI builder writes the advisory to the diagnostic
    stream exactly when [NVD_API_KEY] is unset or set to the empty string;
    it leaves the process as it was exactly when the variable has a
    non-empty value. *)
Theorem cilocal_warns_iff_key_falsy self p :
  CILocalBuilder self ->
  (environ p !! "NVD_API_KEY" = None \/
   environ p !! "NVD_API_KEY" = Some EmptyString ->
     after (build self) p =
       {| environ := environ p;
          stderr := stderr p +:+ NVD_WARNING +:+ Py.nl |}) /\
  (after (build self) p = p <->
     exists key, environ p !! "NVD_API_KEY" = Some key /\ key <> EmptyString).
Proof.
  intros Hb. destruct (CILocalBuilder_inv _ Hb) as (Hc & _).
  rewrite build_after. unfold after.
  rewrite CILocal_validate_run by exact Hc.
  split.
  - intros [Hk | Hk]; now rewrite Hk.
  - destruct (environ p !! "NVD_API_KEY") as [key|] eqn:Hkey; simpl.
    + destruct (Py.truthy key) eqn:Ht; simpl.
      * split; [|reflexivity]. intros _. exists key.
        split; [reflexivity | now apply truthy_true].
      * split.
        -- intros Heq. apply (f_equal stderr) in Heq. simpl in Heq.
           exfalso. revert Heq. apply append_neq_self. discriminate.
        -- intros (key' & Hk' & Hne). injection Hk' as <-.
           apply truthy_true in Hne. congruence.
    + split.
      * intros Heq. apply (f_equal stderr) in Heq. simpl in Heq.
        exfalso. revert Heq. apply append_neq_self. discriminate.
      * intros (key' & Hk' & _). discriminate Hk'.
Qed.

Lemma cilocal_warns_iff_key_falsy_witness :
  after (build CILocalEnvironment_init) (process_of {["NVD_API_KEY" := EmptyString]})
  = {| environ := {["NVD_API_KEY" := EmptyString]};
       stderr := EmptyString +:+ NVD_WARNING +:+ Py.nl |}.
Proof.
  destruct (cilocal_warns_iff_key_falsy CILocalEnvironment_init
              (process_of {["NVD_API_KEY" := EmptyString]}) CILocal_new)
    as [Hwarn _].
  apply Hwarn. right. reflexivity.
Defined.

(** X13. A development builder and a CI builder neither require nor set a
    secret: in the dictionary they build, [JWT_SECRET] is what the ambient
    environment has, the development placeholder included, and is absent
    when the ambient environment has none (unless an extra variable sets
    it). *)
Theorem secretless_builders_pass_jwt_secret self p m :
  DevBuilder self \/ CILocalBuilder self ->
  outcome (build self) p = Return m ->
  extra_vars (_config self) !! "JWT_SECRET" = None ->
  m !! "JWT_SECRET" = environ p !! "JWT_SECRET".
Proof.
  intros Hb Hm Hextra.
  assert (Hj : jwt_secret (_config self) = None).
  { destruct Hb as [Hb | Hb].
    - now destruct (DevBuilder_inv _ Hb) as (_ & _ & _ & _ & Hj).
    - now destruct (CILocalBuilder_inv _ Hb) as (_ & _ & _ & _ & _ & _ & Hj). }
  invert_build self p Hm. rewrite <- Hm. clear Hm.
  rewrite lookup_update, Hextra, Hj.
  destruct (csp_relaxed (_config self)), (database (_config self));
    simpl DatabaseType_eqb; cbv iota; lookup_steps; reflexivity.
Qed.

Lemma secretless_builders_pass_jwt_secret_witness :
  exists m, outcome (build (DevEnvironment_init "h2"))
              (process_of {["JWT_SECRET" := DEV_DEFAULT_JWT_SECRET]}) = Return m /\
            m !! "JWT_SECRET" = Some DEV_DEFAULT_JWT_SECRET.
Proof.
  destruct (build_returns (DevEnvironment_init "h2")
              (process_of {["JWT_SECRET" := DEV_DEFAULT_JWT_SECRET]}) eq_refl)
    as [m Hm].
  exists m. split; [exact Hm|].
  rewrite (secretless_builders_pass_jwt_secret (DevEnvironment_init "h2")
             (process_of {["JWT_SECRET" := DEV_DEFAULT_JWT_SECRET]}) m).
  - reflexivity.
  - left. constructor.
  - exact Hm.
  - reflexivity.
Defined.

(** ** The callers: environments handed to external programs *)

Lemma merged_env_of_build self p m q :
  outcome (build self) p = Return m ->
  environ q = environ p ->
  cs_cli.merged_env (Some m) q = (Return m, q).
Proof.
  intros Hm Hq. unfold cs_cli.merged_env, bind, os_environ_copy, ret. simpl.
  f_equal. f_equal. rewrite Hq. apply map_eq. intros k.
  rewrite lookup_update.
  destruct (m !! k) as [v|] eqn:Hk; [reflexivity|].
  destruct (environ p !! k) as [a|] eqn:Ha; [|reflexivity].
  destruct (build_lookup_ambient self p m k Hm) as [v Hv]; [eauto|].
  congruence.
Qed.

(** X14. The environment that [_run_maven] computes from a dictionary
    returned by [build], in a process with the same ambient environment, is
    that dictionary itself: merging it over the ambient environment adds
    and changes nothing.  So the Maven run of [ci-local] gets exactly what
    [CILocalEnvironment().build()] returned. *)
Theorem run_maven_env_of_build self p m :
  outcome (build self) p = Return m ->
  (forall q, environ q = environ p ->
     cs_cli.merged_env (Some m) q = (Return m, q)) /\
  (forall p0, outcome cs_cli.ci_local_maven_env p0 = outcome cs_cli.ci_local_env p0).
Proof.
  intros Hm. split.
  - intros q Hq. now apply (merged_env_of_build self p m q).
  - intros p0.
    unfold cs_cli.ci_local_maven_env, cs_cli.ci_local_env, bind, outcome.
    pose proof (build_environ CILocalEnvironment_init p0) as Henv.
    pose proof (merged_env_of_build CILocalEnvironment_init p0) as Hmerge.
    unfold after, outcome in Henv, Hmerge.
    destruct (build CILocalEnvironment_init p0) as [[m0|e] p'];
      simpl in Henv, Hmerge; cbv beta iota; [|reflexivity].
    now rewrite (Hmerge m0 p' eq_refl Henv).
Qed.

Lemma run_maven_env_of_build_witness :
  exists m, outcome (build dev_with_extra) ambient_cookie = Return m /\
            cs_cli.merged_env (Some m) ambient_cookie = (Return m, ambient_cookie).
Proof.
  destruct (build_returns dev_with_extra ambient_cookie eq_refl) as [m Hm].
  exists m. split; [exact Hm|].
  destruct (run_maven_env_of_build dev_with_extra ambient_cookie m Hm)
    as [Hmerge _].
  apply Hmerge. reflexivity.
Defined.

Lemma prod_local_env_run https p :
  cs_cli.prod_local_env https p =
    build (if https then with_https (ProdLocal_in p) else ProdLocal_in p) p.
Proof. reflexivity. Qed.

Lemma prod_local_builder (https : bool) p :
  ProdLocalBuilder p (if https then with_https (ProdLocal_in p) else ProdLocal_in p).
Proof.
  destruct https; [apply ProdLocal_https|]; apply ProdLocal_in_builder.
Qed.

(** X15. The [prod-local] command gets an environment exactly when the
    helper [is_jwt_secret_valid] accepts the ambient [JWT_SECRET], with or
    without [--https]; otherwise the builder raises one of the three errors
    of the production-like validation.  Either way the process is left as
    it was. *)
Theorem prod_local_env_gate https p :
  ((exists m, outcome (cs_cli.prod_local_env https) p = Return m) <->
     is_jwt_secret_valid (environ p !! "JWT_SECRET") = true) /\
  (forall e, outcome (cs_cli.prod_local_env https) p = Raise e ->
     e = MissingSecret \/ e = InsecureDefaultSecret \/
     exists n, e = SecretTooShort n) /\
  after (cs_cli.prod_local_env https) p = p.
Proof.
  unfold outcome, after. rewrite prod_local_env_run.
  set (self := if https then with_https (ProdLocal_in p) else ProdLocal_in p).
  pose proof (prod_local_builder https p) as Hb. fold self in Hb.
  destruct (ProdLocalBuilder_inv _ _ Hb) as (Hc & _ & _ & _ & _ & Hj).
  destruct (ProdLocal_validate_verdict self p Hc) as [V Hafter].
  rewrite Hj in V.
  fold (outcome (build self) p). fold (after (build self) p).
  split; [|split].
  - rewrite is_jwt_secret_valid_verdict. split.
    + intros [m Hm]. now rewrite (build_return_validate self p m Hm) in V.
    + intros V'. apply build_returns.
      exact (secret_verdict_functional _ _ _ V V').
  - intros e He. apply build_raise in He. rewrite He in V.
    remember (Raise e) as r eqn:Hr.
    destruct V; try discriminate Hr; apply Raise_inj in Hr; subst e; eauto.
  - now rewrite build_after.
Qed.

Lemma prod_local_env_gate_witness :
  exists m, outcome (cs_cli.prod_local_env false) ambient_valid_secret = Return m.
Proof.
  destruct (prod_local_env_gate false ambient_valid_secret) as [[_ Hok] _].
  apply Hok. reflexivity.
Defined.

(** X16. An environment that the [prod-local] command gets has
    [REQUIRE_SSL] equal to ["true"] with [--https] and to ["false"] without,
    both cookie flags ["true"], the profile ["prod"], and the ambient
    [JWT_SECRET] as its secret; ambient values of the flags and of the
    profile do not matter. *)
Theorem prod_local_env_contents https p m :
  outcome (cs_cli.prod_local_env https) p = Return m ->
  m !! "REQUIRE_SSL" = Some (if https then "true" else "false") /\
  m !! "APP_AUTH_COOKIE_SECURE" = Some "true" /\
  m !! "COOKIE_SECURE" = Some "true" /\
  m !! "SPRING_PROFILES_ACTIVE" = Some "prod" /\
  m !! "JWT_SECRET" = environ p !! "JWT_SECRET".
Proof.
  unfold outcome. rewrite prod_local_env_run.
  set (self := if https then with_https (ProdLocal_in p) else ProdLocal_in p).
  pose proof (prod_local_builder https p) as Hb. fold self in Hb.
  fold (outcome (build self) p). intros Hm.
  assert (Hextra : extra_vars (_config self) = ∅) by (subst self; now destruct https).
  assert (Hssl : require_ssl (_config self) = https) by (subst self; now destruct https).
  destruct (prodlocal_build_flags p self p m Hb Hextra Hm) as (H1 & H2 & H3 & _).
  destruct (ProdLocalBuilder_inv _ _ Hb) as (Hc & _ & Hcsp & Hdb & _ & Hj).
  destruct (ProdLocal_validate_verdict self p Hc) as [V _].
  rewrite (build_return_validate self p m Hm), Hj in V.
  repeat split; trivial.
  - clear V. invert_build self p Hm. rewrite <- Hm. clear Hm.
    rewrite lookup_update, Hextra, lookup_empty, Hcsp, Hdb, Hssl.
    simpl DatabaseType_eqb. cbv iota.
    destruct (jwt_secret (_config self)) as [s|]; [destruct (Py.truthy s)|];
      lookup_steps; now destruct https.
  - inversion V as [ | | | | s Hne Hnd Hlen Hs ]. symmetry in Hs.
    clear V. invert_build self p Hm. rewrite <- Hm. clear Hm.
    rewrite lookup_update, Hextra, lookup_empty, Hcsp, Hdb, Hj, Hs.
    apply truthy_true in Hne. rewrite Hne.
    simpl DatabaseType_eqb. cbv iota. lookup_steps. reflexivity.
Qed.

Lemma prod_local_env_contents_witness :
  exists m, outcome (cs_cli.prod_local_env true) ambient_valid_secret = Return m /\
            m !! "REQUIRE_SSL" = Some "true".
Proof.
  destruct (build_returns (with_https (ProdLocal_in ambient_valid_secret))
              ambient_valid_secret eq_refl) as [m Hm].
  exists m. split; [exact Hm|].
  now destruct (prod_local_env_contents true ambient_valid_secret m Hm).
Defined.



(** ** The [test] command *)

Lemma all_passed_fold (items : list (string * (string * Z))) (acc : bool) :
  fold_left (fun passed item => if (snd (snd item) =? 0)%Z then passed else false)
            items acc = true <->
  acc = true /\ Forall (fun item => snd (snd item) = 0%Z) items.
Proof.
  revert acc. induction items as [|item items IH]; intros acc; simpl.
  - split; [intros ->; split; [reflexivity | constructor] | now intros [-> _]].
  - rewrite IH. destruct (snd (snd item) =? 0)%Z eqn:Hz.
    + apply Z.eqb_eq in Hz. split.
      * intros [-> Hall]. split; [reflexivity | now constructor].
      * intros [-> Hall]. inversion Hall; subst. now split.
    + apply Z.eqb_neq in Hz. split.
      * intros [Hf _]. discriminate Hf.
      * intros [_ Hall]. inversion Hall; subst. contradiction.
Qed.

(** X18. The [test] command always runs at least one check, so its
    summary is never empty.  Its exit code is 0 or 1, and it is 0 exactly
    when every check that ran returned 0; each item is marked ["PASS"]
    exactly when its code is 0. *)
Theorem test_exit_code_spec (o : cs_cli.TestOptions) (rc : cs_cli.Check -> Z) :
  cs_cli.test_results o rc <> [] /\
  (cs_cli.test_exit_code o rc = 0%Z \/ cs_cli.test_exit_code o rc = 1%Z) /\
  (cs_cli.test_exit_code o rc = 0%Z <->
     Forall (fun item => snd (snd item) = 0%Z) (cs_cli.test_results o rc)) /\
  Forall (fun item => fst (snd item) = "PASS" <-> snd (snd item) = 0%Z)
         (cs_cli.test_results o rc).
Proof.
  split; [|split; [|split]].
  - unfold cs_cli.test_results, cs_cli.run_all.
    destruct o as [[] [] [] [] [] []]; simpl; discriminate.
  - unfold cs_cli.test_exit_code.
    destruct (fold_left _ _ _); auto.
  - unfold cs_cli.test_exit_code.
    destruct (fold_left _ (cs_cli.test_results o rc) true) eqn:Hf.
    + apply all_passed_fold in Hf as [_ Hall]. now split.
    + split; [discriminate|]. intros Hall.
      assert (Ht : fold_left
                (fun passed item => if (snd (snd item) =? 0)%Z then passed else false)
                (cs_cli.test_results o rc) true = true)
        by (apply all_passed_fold; now split).
      congruence.
  - assert (Hitem : forall c,
              fst (snd (cs_cli.result_item rc c)) = "PASS" <->
              snd (snd (cs_cli.result_item rc c)) = 0%Z).
    { intros c. unfold cs_cli.result_item. simpl.
      destruct (rc c =? 0)%Z eqn:Hz.
      - apply Z.eqb_eq in Hz. now split.
      - apply Z.eqb_neq in Hz. split; [discriminate | contradiction]. }
    unfold cs_cli.test_results.
    repeat (apply Forall_app; split);
      match goal with |- Forall _ (if ?b then _ else _) => destruct b end;
      repeat constructor; apply Hitem.
Qed.

(** X19. The option [--fast] of the [test] command only matters when no
    check is selected: with any of [--unit], [--integration], [--frontend],
    [--mutation] or [--security], the checks that run are the same with and
    without [--fast].  With no selection, all six checks run without
    [--fast], and the unit, integration and frontend checks with it. *)
Theorem test_fast_only_without_selection unit integration frontend mutation security rc :
  (unit || integration || frontend || mutation || security = true ->
     cs_cli.test_results
       {| cs_cli.opt_unit := unit; cs_cli.opt_integration := integration;
          cs_cli.opt_frontend := frontend; cs_cli.opt_mutation := mutation;
          cs_cli.opt_security := security; cs_cli.opt_fast := true |} rc =
     cs_cli.test_results
       {| cs_cli.opt_unit := unit; cs_cli.opt_integration := integration;
          cs_cli.opt_frontend := frontend; cs_cli.opt_mutation := mutation;
          cs_cli.opt_security := security; cs_cli.opt_fast := false |} rc) /\
  map fst (cs_cli.test_results
       {| cs_cli.opt_unit := false; cs_cli.opt_integration := false;
          cs_cli.opt_frontend := false; cs_cli.opt_mutation := false;
          cs_cli.opt_security := false; cs_cli.opt_fast := false |} rc) =
    [ "Unit Tests"; "Integration Tests"; "Frontend Tests";
      "Mutation Testing"; "OWASP Dep-Check"; "API Fuzzing" ] /\
  map fst (cs_cli.test_results
       {| cs_cli.opt_unit := false; cs_cli.opt_integration := false;
          cs_cli.opt_frontend := false; cs_cli.opt_mutation := false;
          cs_cli.opt_security := false; cs_cli.opt_fast := true |} rc) =
    [ "Unit Tests"; "Integration Tests"; "Frontend Tests" ].
Proof.
  split; [|split; reflexivity].
  destruct unit, integration, frontend, mutation, security;
    intros H; try discriminate H; reflexivity.
Qed.

Lemma test_fast_only_without_selection_witness :
  map fst (cs_cli.test_results
       {| cs_cli.opt_unit := false; cs_cli.opt_integration := false;
          cs_cli.opt_frontend := false; cs_cli.opt_mutation := true;
          cs_cli.opt_security := false; cs_cli.opt_fast := true |} (fun _ => 0%Z))
  = [ "Mutation Testing" ].
Proof.
  destruct (test_fast_only_without_selection false false false true false
              (fun _ => 0%Z)) as [Hsame _].
  rewrite (Hsame eq_refl). reflexivity.
Defined.

(** ** The confirmation prompt *)

Section Strip.
Implicit Types (s r ws : string).

Lemma lstrip_blank ws : PyStr.blank ws = true -> PyStr.lstrip ws = EmptyString.
Proof.
  induction ws as [|c ws IH]; simpl; [reflexivity|].
  intros H. apply andb_true_iff in H as [Hc Hws]. rewrite Hc. now apply IH.
Qed.

Lemma rstrip_blank ws : PyStr.blank ws = true -> PyStr.rstrip ws = EmptyString.
Proof.
  induction ws as [|c ws IH]; simpl; [reflexivity|].
  intros H. apply andb_true_iff in H as [Hc Hws].
  rewrite (IH Hws). now rewrite Hc.
Qed.

Lemma lstrip_app_blank ws s :
  PyStr.blank ws = true -> PyStr.lstrip (ws +:+ s) = PyStr.lstrip s.
Proof.
  induction ws as [|c ws IH]; [reflexivity|].
  rewrite append_cons. simpl. intros H.
  apply andb_true_iff in H as [Hc Hws]. rewrite Hc. now apply IH.
Qed.

Lemma rstrip_app_blank s ws :
  PyStr.blank ws = true -> PyStr.rstrip (s +:+ ws) = PyStr.rstrip s.
Proof.
  intros Hws. induction s as [|c s IH].
  - rewrite append_nil_l. now apply rstrip_blank.
  - rewrite append_cons. simpl. now rewrite IH.
Qed.

Lemma strip_padding ws1 r ws2 :
  PyStr.blank ws1 = true -> PyStr.blank ws2 = true ->
  PyStr.strip (ws1 +:+ r +:+ ws2) = PyStr.strip r.
Proof.
  intros H1 H2. unfold PyStr.strip. rewrite (lstrip_app_blank ws1 _ H1).
  induction r as [|c r IH].
  - rewrite append_nil_l. now rewrite (lstrip_blank ws2 H2).
  - rewrite append_cons. simpl. destruct (PyStr.isspace c); [exact IH|].
    rewrite <- append_cons. now apply rstrip_app_blank.
Qed.

Lemma isspace_lower_char c : PyStr.isspace (Py.lower_char c) = PyStr.isspace c.
Proof.
  destruct c as [[] [] [] [] [] [] [] []]; reflexivity.
Qed.

Lemma lower_lstrip s : Py.lower (PyStr.lstrip s) = PyStr.lstrip (Py.lower s).
Proof.
  induction s as [|c s IH]; [reflexivity|].
  cbn [PyStr.lstrip Py.lower]. rewrite isspace_lower_char.
  destruct (PyStr.isspace c); [exact IH | reflexivity].
Qed.

Lemma lower_rstrip s : Py.lower (PyStr.rstrip s) = PyStr.rstrip (Py.lower s).
Proof.
  induction s as [|c s IH]; [reflexivity|].
  cbn [PyStr.rstrip Py.lower]. rewrite <- IH, isspace_lower_char.
  destruct (PyStr.rstrip s); [|reflexivity].
  cbn [Py.lower]. now destruct (PyStr.isspace c).
Qed.

Lemma lower_strip s : Py.lower (PyStr.strip s) = PyStr.strip (Py.lower s).
Proof. unfold PyStr.strip. now rewrite lower_rstrip, lower_lstrip. Qed.

End Strip.

(** X20. [_confirm] returns [True] for the answers [y] and [yes], whatever
    the default, and the default for an answer that is empty or blank; any
    other answer is a refusal, whatever the default.  White space around the
    answer does not matter, and neither does the case of its letters: two
    answers with the same lowered form are read alike, so [Y], [YES] and
    [ yes ] confirm like [y]. *)
Theorem confirm_insensitive (default : bool) :
  (cs_cli.confirm "y" default = true /\ cs_cli.confirm "yes" default = true) /\
  (forall r,
     Py.lower (PyStr.strip r) = "y" \/ Py.lower (PyStr.strip r) = "yes" ->
     cs_cli.confirm r default = true) /\
  (forall r,
     Py.lower (PyStr.strip r) <> EmptyString ->
     Py.lower (PyStr.strip r) <> "y" -> Py.lower (PyStr.strip r) <> "yes" ->
     cs_cli.confirm r default = false) /\
  (forall ws, PyStr.blank ws = true -> cs_cli.confirm ws default = default) /\
  (forall ws1 r ws2,
     PyStr.blank ws1 = true -> PyStr.blank ws2 = true ->
     cs_cli.confirm (ws1 +:+ r +:+ ws2) default = cs_cli.confirm r default) /\
  (forall r r', Py.lower r = Py.lower r' ->
     cs_cli.confirm r default = cs_cli.confirm r' default).
Proof.
  split; [split; reflexivity|].
  split; [|split; [|split; [|split]]].
  - intros r [Hr | Hr]; unfold cs_cli.confirm; rewrite Hr; reflexivity.
  - intros r Hne Hy Hyes. unfold cs_cli.confirm.
    apply truthy_true in Hne. rewrite Hne. simpl.
    apply String.eqb_neq in Hy, Hyes. now rewrite Hy, Hyes.
  - intros ws Hws. unfold cs_cli.confirm, PyStr.strip.
    now rewrite (lstrip_blank ws Hws).
  - intros ws1 r ws2 H1 H2. unfold cs_cli.confirm.
    now rewrite (strip_padding ws1 r ws2 H1 H2).
  - intros r r' Heq. unfold cs_cli.confirm.
    now rewrite !lower_strip, Heq.
Qed.

Lemma confirm_insensitive_witness :
  cs_cli.confirm "  YES " false = true /\
  cs_cli.confirm "  YES " false = cs_cli.confirm "y" false /\
  cs_cli.confirm "no" true = false.
Proof.
  destruct (confirm_insensitive false) as ([Hy _] & Hyes & _ & _ & _ & _).
  destruct (confirm_insensitive true) as (_ & _ & Hno & _).
  assert (H : cs_cli.confirm "  YES " false = true)
    by (apply Hyes; right; reflexivity).
  split; [exact H|]. split.
  - now rewrite H, Hy.
  - apply Hno; discriminate.
Defined.
